(** * The external-editor round trip of qutebrowser's CurCommandDispatcher

    A shallow embedding of [editor], [_editor_cleanup], [on_editor_closed]
    and [on_editor_error] from [qutebrowser/browser/curcommand.py], over an
    explicit model of the host the four methods talk to: the file system
    and descriptor table ([mkstemp], [open], [os.close], [os.remove]), the
    page ([findFirstElement], [isNull], [evaluateJavaScript]), the
    configuration and the [QProcess] object.

    A Python text is a Rocq string holding the UTF-8 encoding of the
    text, byte by byte; a file holds bytes.  Reading a file as text
    decodes the bytes, which fails on bytes that are not UTF-8, and
    translates the line endings. *)

From Stdlib Require Import ZArith String Ascii List Lia.
From stdpp Require Import base gmap strings list pretty.

(** ** Exceptions and results *)

Inductive exn : Type :=
| CommandError (msg : string)
| OSError (errno : string)
| FileNotFoundError (path : string)
| FileExistsError
| PermissionError (path : string)
| UnicodeDecodeError
| KeyError (key : Z)
| IndexError.

Inductive result (A : Type) : Type :=
| Ok (a : A)
| Raise (e : exn).
Arguments Ok {A} a.
Arguments Raise {A} e.

(** ** The host *)

(** An element handle as [QWebElement]: [None] is the null element,
    [Some i] refers to node [i] of the page. *)
Definition Elem : Type := option nat.

(** [QProcess.ExitStatus]. *)
Inductive ExitStatus : Type := NormalExit | CrashExit.

(** Calls issued to the host, in the order they are made.  A call is
    recorded when it is attempted, whether or not it succeeds. *)
Inductive call : Type :=
| CMkstemp (fd : nat) (path : string)
| COpenWrite (path : string)
| COpenRead (path : string)
| COsClose (fd : nat)
| COsRemove (path : string)
| CGetValue (elem : Elem)
| CEvaluateJavaScript (elem : Elem) (script : string)
| CConnectFinished (elem : Elem) (oshandle : nat) (filename : string)
| CConnectError (oshandle : nat) (filename : string)
| CProcStart (executable : string) (args : list string).

Record World : Type := mkWorld {
  fs : gmap string string;       (* path -> bytes of the file *)
  open_fds : gset nat;           (* descriptors that are open *)
  undeletable : gset string;     (* paths whose removal the OS denies *)
  disk_full : bool;              (* writing data fails with ENOSPC *)
  tmp_names : list string;       (* names the tempfile module will draw *)
  elements : gmap nat string;    (* live editable nodes -> their value *)
  focus : Elem;                  (* the focused editable node, if any *)
  cfg_editor : list string;      (* config.get('general', 'editor') *)
  js_other : Elem -> string -> gmap nat string -> gmap nat string;
                                 (* what the JavaScript engine does to the
                                    nodes when it runs, on an element, a
                                    script that is not one assignment of a
                                    string literal to this.value *)
  trace : list call              (* calls made so far, oldest first *)
}.

Definition set_fs (f : gmap string string) (w : World) : World :=
  mkWorld f (open_fds w) (undeletable w) (disk_full w) (tmp_names w)
          (elements w) (focus w) (cfg_editor w) (js_other w) (trace w).
Definition set_open_fds (s : gset nat) (w : World) : World :=
  mkWorld (fs w) s (undeletable w) (disk_full w) (tmp_names w)
          (elements w) (focus w) (cfg_editor w) (js_other w) (trace w).
Definition set_tmp_names (l : list string) (w : World) : World :=
  mkWorld (fs w) (open_fds w) (undeletable w) (disk_full w) l
          (elements w) (focus w) (cfg_editor w) (js_other w) (trace w).
Definition set_elements (e : gmap nat string) (w : World) : World :=
  mkWorld (fs w) (open_fds w) (undeletable w) (disk_full w) (tmp_names w)
          e (focus w) (cfg_editor w) (js_other w) (trace w).
Definition log (c : call) (w : World) : World :=
  mkWorld (fs w) (open_fds w) (undeletable w) (disk_full w) (tmp_names w)
          (elements w) (focus w) (cfg_editor w) (js_other w) (trace w ++ [c]).

(** ** Python statements as state-and-exception computations *)

Definition M (A : Type) : Type := World -> result A * World.

Definition ret {A} (a : A) : M A := fun w => (Ok a, w).
Definition raise {A} (e : exn) : M A := fun w => (Raise e, w).
Definition bind {A B} (m : M A) (k : A -> M B) : M B :=
  fun w => match m w with
           | (Ok a, w') => k a w'
           | (Raise e, w') => (Raise e, w')
           end.
(** [try: m except PermissionError: h] *)
Definition except_PermissionError {A} (m : M A) (h : M A) : M A :=
  fun w => match m w with
           | (Raise (PermissionError _), w') => h w'
           | r => r
           end.
(** Record a call to the host. *)
Definition emit (c : call) : M unit := fun w => (Ok tt, log c w).

Declare Scope py_scope.
Delimit Scope py_scope with py.
Notation "x <- m ;; k" := (bind m (fun x => k))
  (at level 100, m at next level, right associativity) : py_scope.
Notation "m ;;; k" := (bind m (fun _ => k))
  (at level 100, right associativity) : py_scope.
Open Scope py_scope.

(** *** File system and descriptors *)

(** [os.close(fd)] *)
Definition os_close (fd : nat) : M unit :=
  emit (COsClose fd) ;;;
  fun w => if bool_decide (fd ∈ open_fds w)
           then (Ok tt, set_open_fds (open_fds w ∖ {[fd]}) w)
           else (Raise (OSError "EBADF"), w).

(** [os.remove(path)] *)
Definition os_remove (path : string) : M unit :=
  emit (COsRemove path) ;;;
  fun w => match fs w !! path with
           | None => (Raise (FileNotFoundError path), w)
           | Some _ =>
               if bool_decide (path ∈ undeletable w)
               then (Raise (PermissionError path), w)
               else (Ok tt, set_fs (delete path (fs w)) w)
           end.

(** [tempfile.mkstemp(text=True)]: the first drawn name that does not
    exist is created empty and opened; the descriptor is one that was not
    open. *)
Fixpoint first_unused (files : gmap string string) (names : list string)
  : option (string * list string) :=
  match names with
  | [] => None
  | n :: rest => match files !! n with
                 | None => Some (n, rest)
                 | Some _ => first_unused files rest
                 end
  end.

Definition mkstemp : M (nat * string) :=
  fun w => match first_unused (fs w) (tmp_names w) with
           | None => (Raise FileExistsError, set_tmp_names [] w)
           | Some (path, rest) =>
               let fd := fresh (open_fds w) in
               (Ok (fd, path),
                log (CMkstemp fd path)
                  (set_open_fds ({[fd]} ∪ open_fds w)
                     (set_fs (<[path := ""]> (fs w))
                        (set_tmp_names rest w))))
           end.

(** [with open(filename, 'w', encoding='utf-8') as f: f.write(text)]:
    opening truncates the file; the data reaches it unless the disk is
    full. *)
Definition write_text (filename text : string) : M unit :=
  emit (COpenWrite filename) ;;;
  fun w => let w' := set_fs (<[filename := ""]> (fs w)) w in
           if disk_full w
           then (Raise (OSError "ENOSPC"), w')
           else (Ok tt, set_fs (<[filename := text]> (fs w)) w).

(** The text layer of [open(filename, 'r', encoding='utf-8')].

    Decoding is strict UTF-8: no stray continuation byte, no truncated
    sequence, no overlong form, no surrogate, nothing above U+10FFFF.
    [need] counts the continuation bytes still due and [lo], [hi] bound
    the next one. *)
Definition byte_in (lo hi : N) (c : ascii) : bool :=
  (lo <=? N_of_ascii c)%N && (N_of_ascii c <=? hi)%N.

Fixpoint utf8_valid_from (need : nat) (lo hi : N) (s : string) : bool :=
  match s with
  | "" => match need with O => true | S _ => false end
  | String c s' =>
      match need with
      | S k => if byte_in lo hi c then utf8_valid_from k 128 191 s' else false
      | O =>
          if byte_in 0 127 c then utf8_valid_from 0 128 191 s'
          else if byte_in 194 223 c then utf8_valid_from 1 128 191 s'
          else if byte_in 224 224 c then utf8_valid_from 2 160 191 s'
          else if byte_in 225 236 c then utf8_valid_from 2 128 191 s'
          else if byte_in 237 237 c then utf8_valid_from 2 128 159 s'
          else if byte_in 238 239 c then utf8_valid_from 2 128 191 s'
          else if byte_in 240 240 c then utf8_valid_from 3 144 191 s'
          else if byte_in 241 243 c then utf8_valid_from 3 128 191 s'
          else if byte_in 244 244 c then utf8_valid_from 3 128 143 s'
          else false
      end
  end.

Definition utf8_valid (s : string) : bool := utf8_valid_from 0 128 191 s.

(** [bytes.decode('utf-8')]: the text, still in its UTF-8 form, or
    [None] for [UnicodeDecodeError]. *)
Definition utf8_decode (content : string) : option string :=
  if utf8_valid content then Some content else None.

(** The default newline mode on reading: [CR LF] and a [CR] alone both
    become [LF]. *)
Fixpoint universal_newlines (s : string) : string :=
  match s with
  | "" => ""
  | String c s' =>
      if Ascii.eqb c "013" then
        match s' with
        | String d s'' =>
            if Ascii.eqb d "010" then String "010" (universal_newlines s'')
            else String "010" (universal_newlines s')
        | "" => String "010" ""
        end
      else String c (universal_newlines s')
  end.

(** A carriage return occurs in the text. *)
Fixpoint has_cr (s : string) : bool :=
  match s with
  | "" => false
  | String c s' => Ascii.eqb c "013" || has_cr s'
  end.

(** [f.readlines()]: the lines of the text, each with its newline. *)
Definition newline : ascii := "010"%char.

Fixpoint readlines (s : string) : list string :=
  match s with
  | "" => []
  | String c s' =>
      if Ascii.eqb c newline then String c "" :: readlines s'
      else match readlines s' with
           | [] => [String c ""]
           | l :: ls => String c l :: ls
           end
  end.

(** [''.join(lines)] *)
Definition join (sep : string) (parts : list string) : string :=
  String.concat sep parts.

(** [with open(filename, 'r', encoding='utf-8') as f:
        text = ''.join(f.readlines())] *)
Definition read_lines_joined (filename : string) : M string :=
  emit (COpenRead filename) ;;;
  fun w => match fs w !! filename with
           | None => (Raise (FileNotFoundError filename), w)
           | Some content =>
               match utf8_decode content with
               | None => (Raise UnicodeDecodeError, w)
               | Some text =>
                   (Ok (join "" (readlines (universal_newlines text))), w)
               end
           end.

(** *** The page *)

(** [frame.findFirstElement(webelem.SELECTORS[webelem.Group.editable_focused])]:
    the focused editable node, or the null element. *)
Definition findFirstElement_editable_focused : M Elem :=
  fun w => match focus w with
           | Some i => match elements w !! i with
                       | Some _ => (Ok (Some i), w)
                       | None => (Ok None, w)
                       end
           | None => (Ok None, w)
           end.

(** [elem.isNull()]: the handle is null, or its node is gone. *)
Definition isNull (elem : Elem) : M bool :=
  fun w => match elem with
           | None => (Ok true, w)
           | Some i => match elements w !! i with
                       | Some _ => (Ok false, w)
                       | None => (Ok true, w)
                       end
           end.

(** [elem.evaluateJavaScript('this.value')]; a missing value is falsy,
    as the empty text is. *)
Definition evaluate_this_value (elem : Elem) : M string :=
  emit (CGetValue elem) ;;;
  fun w => match elem with
           | Some i => (Ok (default "" (elements w !! i)), w)
           | None => (Ok "", w)
           end.

(** The part of JavaScript that a script [this.value='...'] needs: the
    body of a single-quoted string literal.  [js_string_body s] decodes
    [s] up to the closing quote and returns the decoded text with what
    follows the quote; a line terminator inside the literal, an escape
    that is not modelled, or a missing closing quote give [None]. *)
Definition js_escape_char (d : ascii) : option string :=
  if Ascii.eqb d "n" then Some (String "010" "")
  else if Ascii.eqb d "r" then Some (String "013" "")
  else if Ascii.eqb d "t" then Some (String "009" "")
  else if Ascii.eqb d "b" then Some (String "008" "")
  else if Ascii.eqb d "f" then Some (String "012" "")
  else if Ascii.eqb d "v" then Some (String "011" "")
  else if Ascii.eqb d "010" then Some ""
  else if Ascii.eqb d "\" then Some "\"
  else if Ascii.eqb d "'" then Some "'"
  else if Ascii.eqb d "034" then Some (String "034" "")
  else None.

Fixpoint js_string_body (s : string) : option (string * string) :=
  match s with
  | "" => None
  | String c s' =>
      if Ascii.eqb c "'" then Some ("", s')
      else if Ascii.eqb c "\" then
        match s' with
        | "" => None
        | String d s'' =>
            match js_escape_char d, js_string_body s'' with
            | Some x, Some (v, rest) => Some (x +:+ v, rest)
            | _, _ => None
            end
        end
      else if Ascii.eqb c "010" || Ascii.eqb c "013" then None
      else match js_string_body s' with
           | Some (v, rest) => Some (String c v, rest)
           | None => None
           end
  end.

Definition strip_prefix (p s : string) : option string :=
  if String.prefix p s
  then Some (String.substring (String.length p)
                              (String.length s - String.length p) s)
  else None.

(** What a script does to [this.value]: [Some v] when the script is
    exactly one assignment of a string literal denoting [v]. *)
Definition js_assigned_value (script : string) : option string :=
  match strip_prefix "this.value='" script with
  | Some body => match js_string_body body with
                 | Some (v, "") => Some v
                 | _ => None
                 end
  | None => None
  end.

(** [elem.evaluateJavaScript(script)].  On a null element nothing is
    run.  A script that is one assignment of a string literal sets the
    value of the node.  What a script of any other shape does (nothing on
    a syntax error, anything at all when statements follow the literal)
    is up to the engine, [js_other]. *)
Definition evaluateJavaScript (elem : Elem) (script : string) : M unit :=
  emit (CEvaluateJavaScript elem script) ;;;
  fun w => match elem with
           | None => (Ok tt, w)
           | Some i =>
               match elements w !! i with
               | None => (Ok tt, w)
               | Some _ =>
                   match js_assigned_value script with
                   | Some v =>
                       (Ok tt, set_elements (<[i := v]> (elements w)) w)
                   | None =>
                       (Ok tt,
                        set_elements (js_other w elem script (elements w)) w)
                   end
               end
           end.

(** *** Strings *)

(** [s.replace(old, new)]: every occurrence of [old], found from the left
    and without overlap, becomes [new].  [skip] counts the characters of
    a match that are still to be passed over. *)
Fixpoint replace_from (old new : string) (skip : nat) (s : string) : string :=
  match s with
  | "" => ""
  | String c s' =>
      match skip with
      | S k => replace_from old new k s'
      | O => if String.prefix old s
             then new +:+ replace_from old new (String.length old - 1) s'
             else String c (replace_from old new 0 s')
      end
  end.

Fixpoint intersperse_chars (new s : string) : string :=
  match s with
  | "" => ""
  | String c s' => String c (new +:+ intersperse_chars new s')
  end.

Definition str_replace (old new s : string) : string :=
  match old with
  | "" => new +:+ intersperse_chars new s
  | String _ _ => replace_from old new 0 s
  end.

(** [s.split(old)] for a non-empty [old], by the same scan. *)
Fixpoint split_from (old : string) (skip : nat) (s : string) : list string :=
  match s with
  | "" => [""]
  | String c s' =>
      match skip with
      | S k => split_from old k s'
      | O => if String.prefix old s
             then "" :: split_from old (String.length old - 1) s'
             else match split_from old 0 s' with
                  | p :: ps => String c p :: ps
                  | [] => [String c ""]
                  end
      end
  end.

(** [s[n:]] *)
Fixpoint string_drop (n : nat) (s : string) : string :=
  match n, s with
  | O, _ => s
  | S _, "" => ""
  | S k, String _ s' => string_drop k s'
  end.

(** [old in s] *)
Fixpoint contains (old s : string) : bool :=
  match s with
  | "" => String.prefix old ""
  | String _ s' => String.prefix old s || contains old s'
  end.

(** [if text:] holds for every text but the empty one. *)
Definition truthy (text : string) : bool :=
  match text with
  | "" => false
  | String _ _ => true
  end.

(** *** Configuration and the process object *)

(** [config.get('general', 'editor')] *)
Definition config_get_editor : M (list string) :=
  fun w => (Ok (cfg_editor w), w).

(** [editor[0]] *)
Definition index0 (l : list string) : M string :=
  match l with
  | [] => raise IndexError
  | x :: _ => ret x
  end.

(** [[arg.replace('{}', filename) for arg in editor[1:]]] *)
Definition editor_args (editor : list string) (filename : string)
  : list string :=
  map (fun arg => str_replace "{}" filename arg) (tail editor).

(** [QProcess.ProcessError] values are integers. *)
Definition FailedToStart : Z := 0.
Definition Crashed : Z := 1.
Definition Timedout : Z := 2.
Definition ReadError : Z := 3.
Definition WriteError : Z := 4.
Definition UnknownError : Z := 5.

(** ** The methods of CurCommandDispatcher *)

(** [_editor_cleanup(self, oshandle, filename)] *)
Definition _editor_cleanup (oshandle : nat) (filename : string) : M unit :=
  os_close oshandle ;;;
  except_PermissionError
    (os_remove filename)
    (raise (CommandError "Failed to delete tempfile...")).

(** The [messages] dictionary of [on_editor_error]. *)
Definition messages : gmap Z string :=
  <[FailedToStart := "The process failed to start."]>
  (<[Crashed := "The process crashed."]>
  (<[Timedout := "The last waitFor...() function timed out."]>
  (<[WriteError := "An error occurred when attempting to write to the process."]>
  (<[ReadError := "An error occurred when attempting to read from the process."]>
  (<[UnknownError := "An unknown error occurred."]> ∅))))).

(** [messages[error]] *)
Definition messages_getitem (error : Z) : M string :=
  match messages !! error with
  | Some m => ret m
  | None => raise (KeyError error)
  end.

(** [on_editor_error(self, oshandle, filename, error)] *)
Definition on_editor_error (oshandle : nat) (filename : string) (error : Z)
  : M unit :=
  _editor_cleanup oshandle filename ;;;
  m <- messages_getitem error ;;
  raise (CommandError ("Error while calling editor: " +:+ m)).

Section Editor.

(** [webelem.javascript_escape] lives in a module of the repository that
    is not part of the sources at hand. *)
Variable javascript_escape : string -> string.

(** [on_editor_closed(self, elem, oshandle, filename, exitcode, exitstatus)] *)
Definition on_editor_closed (elem : Elem) (oshandle : nat)
    (filename : string) (exitcode : Z) (exitstatus : ExitStatus) : M unit :=
  if negb (Z.eqb exitcode 0) then
    raise (CommandError
             ("Editor did quit abnormally (status " +:+ pretty exitcode +:+ ")!"))
  else
  match exitstatus with
  | CrashExit => ret tt
  | NormalExit =>
      null <- isNull elem ;;
      if (null : bool) then raise (CommandError "Element vanished while editing!")
      else
        text <- read_lines_joined filename ;;
        let text := javascript_escape text in
        evaluateJavaScript elem ("this.value='" +:+ text +:+ "'") ;;;
        _editor_cleanup oshandle filename
  end.

(** [editor(self)] *)
Definition editor : M unit :=
  elem <- findFirstElement_editable_focused ;;
  null <- isNull elem ;;
  if (null : bool) then raise (CommandError "No editable element focused!")
  else
    fdname <- mkstemp ;;
    let oshandle := fst fdname in
    let filename := snd fdname in
    text <- evaluate_this_value elem ;;
    (if truthy text then write_text filename text else ret tt) ;;;
    emit (CConnectFinished elem oshandle filename) ;;;
    emit (CConnectError oshandle filename) ;;;
    editor <- config_get_editor ;;
    executable <- index0 editor ;;
    let args := editor_args editor filename in
    emit (CProcStart executable args).

End Editor.

(** Modelled from the spec: [webelem.javascript_escape], defined in
    [qutebrowser/utils/webelem.py], which is not among the source files.
    The spec has it transform the text so that it can be injected into the
    element without being read as control syntax, neutralizing every
    character that could terminate the injection context.  In the
    single-quoted literal of [this.value='...'] those are the quote, the
    backslash and the line terminators; each gets a backslash escape. *)
Definition javascript_escape_char (c : ascii) : string :=
  if Ascii.eqb c "\" then "\\"
  else if Ascii.eqb c "'" then "\'"
  else if Ascii.eqb c "010" then "\n"
  else if Ascii.eqb c "013" then "\r"
  else String c "".

(** Modelled from the spec: [webelem.javascript_escape] applied to a whole
    text, which is missing with the rest of [webelem.py]: every character
    is escaped on its own, in order. *)
Fixpoint javascript_escape (text : string) : string :=
  match text with
  | "" => ""
  | String c text' => javascript_escape_char c +:+ javascript_escape text'
  end.

(** Reading the whole file as one string, [f.read()], which the spec's
    words for the read-back step describe. *)
Definition read_whole (filename : string) : M string :=
  emit (COpenRead filename) ;;;
  fun w => match fs w !! filename with
           | None => (Raise (FileNotFoundError filename), w)
           | Some content =>
               match utf8_decode content with
               | None => (Raise UnicodeDecodeError, w)
               | Some text => (Ok (universal_newlines text), w)
               end
           end.

(** ** Signals of the process

    [proc.finished.connect(partial(self.on_editor_closed, elem, oshandle,
    filename))] and [proc.error.connect(partial(self.on_editor_error,
    oshandle, filename))]: the event loop calls the connected method for
    each signal; an exception that leaves the method is reported to the
    user and the loop goes on. *)
Inductive signal : Type :=
| SigError (error : Z)
| SigFinished (exitcode : Z) (exitstatus : ExitStatus).

Definition slot (esc : string -> string) (elem : Elem) (oshandle : nat)
    (filename : string) (s : signal) : M unit :=
  match s with
  | SigError error => on_editor_error oshandle filename error
  | SigFinished exitcode exitstatus =>
      on_editor_closed esc elem oshandle filename exitcode exitstatus
  end.

Fixpoint deliver (esc : string -> string) (elem : Elem) (oshandle : nat)
    (filename : string) (sigs : list signal) (w : World)
  : list exn * World :=
  match sigs with
  | [] => ([], w)
  | s :: rest =>
      match slot esc elem oshandle filename s w with
      | (Ok _, w') => deliver esc elem oshandle filename rest w'
      | (Raise e, w') =>
          let r := deliver esc elem oshandle filename rest w' in
          (e :: fst r, snd r)
      end
  end.

(** How often a call occurs in a trace. *)
Definition call_eqb (a b : call) : bool :=
  match a, b with
  | COsClose x, COsClose y => bool_decide (x = y)
  | COsRemove x, COsRemove y => bool_decide (x = y)
  | _, _ => false
  end.

Definition count_call (c : call) (t : list call) : nat :=
  length (filter (fun x => call_eqb c x = true) t).

(** What it means for [out] to be [arg] with the token [{}] replaced by
    [filename]: [arg] is a sequence of pieces, none holding the token,
    with the token between them, and [out] is the same pieces with
    [filename] between them; in particular [out] is [arg] when [arg] does
    not hold the token. *)
Definition substituted (filename arg out : string) : Prop :=
  (contains "{}" arg = false -> out = arg) /\
  exists parts : list string,
    join "{}" parts = arg /\
    Forall (fun p => contains "{}" p = false) parts /\
    out = join filename parts.

(** ** Worlds to run the methods in *)

(** An engine under which scripts of any other shape change nothing. *)
Definition inert_engine (_ : Elem) (_ : string) (nodes : gmap nat string)
  : gmap nat string := nodes.

(** One page node with the value [hello], focused; one descriptor already
    in use; the editor is [gvim -f {}]. *)
Definition sample_world : World :=
  mkWorld ∅ {[0]} ∅ false ["/tmp/tmpq1"; "/tmp/tmpq2"]
          (<[7 := "hello"]> ∅) (Some 7) ["gvim"; "-f"; "{}"] inert_engine [].

(** The same page with nothing focused. *)
Definition unfocused_world : World :=
  mkWorld ∅ {[0]} ∅ false ["/tmp/tmpq1"; "/tmp/tmpq2"]
          (<[7 := "hello"]> ∅) None ["gvim"; "-f"; "{}"] inert_engine [].

(** The same page on a full disk. *)
Definition full_disk_world : World :=
  mkWorld ∅ {[0]} ∅ true ["/tmp/tmpq1"; "/tmp/tmpq2"]
          (<[7 := "hello"]> ∅) (Some 7) ["gvim"; "-f"; "{}"] inert_engine [].

(** After [editor] has started the process: descriptor 1 is open on
    [/tmp/tmpq1], which holds [hello]. *)
Definition running_world : World := snd (editor sample_world).

(** The running session after the user has saved [it's] in the editor. *)
Definition edited_world : World :=
  set_fs (<["/tmp/tmpq1" := "it's"]> (fs running_world)) running_world.

(** The running session after the user has saved [a], a carriage return
    and [b]. *)
Definition cr_world : World :=
  set_fs (<["/tmp/tmpq1" := String "a" (String "013" "b")]> (fs running_world))
         running_world.

(** The running session after the user has saved the single byte 233, an
    e with acute accent in Latin-1. *)
Definition latin1_world : World :=
  set_fs (<["/tmp/tmpq1" := String "233" ""]> (fs running_world)) running_world.

(** The running session after the page has lost the node. *)
Definition vanished_world : World := set_elements ∅ running_world.

(** The running session with a temp file that the OS refuses to delete. *)
Definition locked_world : World :=
  mkWorld (fs running_world) (open_fds running_world) {["/tmp/tmpq1"]}
          (disk_full running_world) (tmp_names running_world)
          (elements running_world) (focus running_world)
          (cfg_editor running_world) (js_other running_world) (trace running_world).

(** The running session after [on_editor_error] has handled a crash. *)
Definition crashed_world : World :=
  snd (on_editor_error 1 "/tmp/tmpq1" Crashed running_world).

(** An engine under which a script of any other shape overwrites node
    8. *)
Definition meddling_engine (_ : Elem) (_ : string) (nodes : gmap nat string)
  : gmap nat string := <[8 := "gone"]> nodes.

(** A session under that engine, on a page with a second node, after the
    user has saved a text that ends the literal and goes on with a
    statement. *)
Definition meddling_world : World :=
  mkWorld (<["/tmp/tmpq1" := "';x='"]> ∅) {[0; 1]} ∅ false ["/tmp/tmpq2"]
          (<[7 := "hello"]> (<[8 := "other"]> ∅)) (Some 7)
          ["gvim"; "-f"; "{}"] meddling_engine [].

(** The running session after one [_editor_cleanup]. *)
Definition cleaned_world : World :=
  snd (_editor_cleanup 1 "/tmp/tmpq1" running_world).

(** The page of [sample_world] with an empty value in the node, on a full
    disk. *)
Definition empty_text_world : World :=
  mkWorld ∅ {[0]} ∅ true ["/tmp/tmpq1"; "/tmp/tmpq2"]
          (<[7 := ""]> ∅) (Some 7) ["gvim"; "-f"; "{}"] inert_engine [].

(** The page of [sample_world] with an empty [editor] setting. *)
Definition no_editor_world : World :=
  mkWorld ∅ {[0]} ∅ false ["/tmp/tmpq1"; "/tmp/tmpq2"]
          (<[7 := "hello"]> ∅) (Some 7) [] inert_engine [].

(** ** Commands on the history and the shell

    The tab widget and its history belong to classes outside this file;
    [back] and [forward] are embedded over an arbitrary host state, with
    [self._tabs.currentWidget().go_back()] and [...go_forward()] as
    arbitrary computations on it. *)

(** [for _ in range(count): body] *)
Fixpoint repeat_body {Host : Type} (n : nat)
    (body : Host -> result unit * Host) (h : Host) : result unit * Host :=
  match n with
  | O => (Ok tt, h)
  | S k => match body h with
           | (Ok _, h') => repeat_body k body h'
           | (Raise e, h') => (Raise e, h')
           end
  end.

Definition for_range {Host : Type} (count : Z)
    (body : Host -> result unit * Host) : Host -> result unit * Host :=
  repeat_body (Z.to_nat count) body.

(** [back(self, count=1)] *)
Definition back {Host : Type} (go_back : Host -> result unit * Host)
    (count : Z) : Host -> result unit * Host :=
  for_range count go_back.

(** [forward(self, count=1)] *)
Definition forward {Host : Type} (go_forward : Host -> result unit * Host)
    (count : Z) : Host -> result unit * Host :=
  for_range count go_forward.

(** One computation after the other, as two commands run in a row; the
    second is not run when the first raises. *)
Definition and_then {Host : Type} (c1 c2 : Host -> result unit * Host)
  : Host -> result unit * Host :=
  fun h => match c1 h with
           | (Ok _, h') => c2 h'
           | (Raise e, h') => (Raise e, h')
           end.

(** A host to run [back] and [forward] on: it counts the steps taken and
    refuses to go past ten. *)
Definition counting_step (n : nat) : result unit * nat :=
  if Nat.ltb n 10 then (Ok tt, S n)
  else (Raise (CommandError "limit reached"), n).

(** The command line that [spawn] hands to [subprocess.Popen]:
    [cmd.replace('{}', shell_escape(url))].  [shell_escape] is imported
    from [qutebrowser.utils.misc], which is outside this file. *)
Definition spawn_command (shell_escape : string -> string)
    (url cmd : string) : string :=
  str_replace "{}" (shell_escape url) cmd.

(** No brace occurs in the text. *)
Fixpoint brace_free (s : string) : bool :=
  match s with
  | "" => true
  | String c s' =>
      negb (Ascii.eqb c "{") && negb (Ascii.eqb c "}") && brace_free s'
  end.

(** * Properties *)

(** ** Texts *)

#[local] Arguments String.append : simpl nomatch.

Example readlines_two_lines :
  readlines ("a" +:+ String "010" "b") = ["a" +:+ String "010" ""; "b"].
Proof. reflexivity. Qed.

Example str_replace_braces :
  str_replace "{}" "/tmp/x" "a{}b{{}}c{" = "a/tmp/xb{/tmp/x}c{".
Proof. reflexivity. Qed.

Example split_from_braces :
  split_from "{}" 0 "a{}b{{}}c{" = ["a"; "b{"; "}c{"].
Proof. reflexivity. Qed.

(** [e] with acute accent: the two bytes of its UTF-8 form decode, the
    single byte of its Latin-1 form does not; neither do an overlong
    form, a surrogate and a truncated sequence. *)
Example utf8_valid_two_bytes :
  utf8_valid (String "195" (String "169" "")) = true.
Proof. reflexivity. Qed.

Example utf8_valid_latin1 : utf8_valid (String "233" "") = false.
Proof. reflexivity. Qed.

Example utf8_valid_overlong :
  utf8_valid (String "192" (String "128" "")) = false.
Proof. reflexivity. Qed.

Example utf8_valid_surrogate :
  utf8_valid (String "237" (String "160" (String "128" ""))) = false.
Proof. reflexivity. Qed.

Example utf8_valid_truncated :
  utf8_valid (String "226" (String "130" "")) = false.
Proof. reflexivity. Qed.

Example universal_newlines_mixed :
  universal_newlines
    (String "a" (String "013" (String "010"
       (String "b" (String "013" (String "c" (String "013" "")))))))
  = String "a" (String "010" (String "b" (String "010"
      (String "c" (String "010" ""))))).
Proof. reflexivity. Qed.

Example javascript_escape_quote : javascript_escape "it's" = "it\'s".
Proof. reflexivity. Qed.

(** Without escaping, a quote in the text ends the literal early. *)
Example js_unescaped_quote : js_assigned_value "this.value='it's'" = None.
Proof. reflexivity. Qed.

Example js_escaped_quote : js_assigned_value "this.value='it\'s'" = Some "it's".
Proof. reflexivity. Qed.

Lemma append_empty_r (s : string) : s +:+ "" = s.
Proof. induction s as [|c s IH]; [reflexivity | simpl; f_equal; exact IH]. Qed.

Lemma join_cons_cons (sep x y : string) (l : list string) :
  join sep (x :: y :: l) = x +:+ sep +:+ join sep (y :: l).
Proof. reflexivity. Qed.

Lemma join_empty_cons (x : string) (l : list string) :
  join "" (x :: l) = x +:+ join "" l.
Proof.
  destruct l as [|y l]; [|reflexivity].
  unfold join. cbn [String.concat]. symmetry. apply append_empty_r.
Qed.

Lemma join_cons_char (sep : string) (c : ascii) (p : string) (ps : list string) :
  join sep (String c p :: ps) = String c (join sep (p :: ps)).
Proof. destruct ps; reflexivity. Qed.

Lemma join_readlines (s : string) : join "" (readlines s) = s.
Proof.
  induction s as [|c s IH]; [reflexivity|].
  cbn [readlines]. destruct (Ascii.eqb c newline).
  - rewrite join_empty_cons, IH. reflexivity.
  - destruct (readlines s) as [|l ls].
    + simpl in IH. subst s. reflexivity.
    + rewrite join_cons_char, IH. reflexivity.
Qed.

Lemma substring_all (s : string) : String.substring 0 (String.length s) s = s.
Proof. induction s as [|c s IH]; simpl; [reflexivity | now rewrite IH]. Qed.

Lemma strip_prefix_append (p x : string) : strip_prefix p (p +:+ x) = Some x.
Proof.
  unfold strip_prefix.
  assert (Hp : String.prefix p (p +:+ x) = true).
  { induction p as [|a p IH]; simpl; [now destruct x|].
    destruct (ascii_dec a a); [exact IH | congruence]. }
  rewrite Hp. f_equal.
  induction p as [|a p IH]; simpl.
  - rewrite Nat.sub_0_r. apply substring_all.
  - apply IH. simpl in Hp. destruct (ascii_dec a a); [exact Hp | congruence].
Qed.

(** The literal body written by the modelled escape function decodes to
    the text it was made from, and stops at the quote that follows it. *)
Lemma js_string_body_escape (T rest : string) :
  js_string_body (javascript_escape T +:+ String "'" rest) = Some (T, rest).
Proof.
  induction T as [|c T IH]; [reflexivity|].
  cbn [javascript_escape]. unfold javascript_escape_char.
  destruct (Ascii.eqb_spec c "\") as [->|H1]; [simpl; now rewrite IH|].
  destruct (Ascii.eqb_spec c "'") as [->|H2]; [simpl; now rewrite IH|].
  destruct (Ascii.eqb_spec c "010") as [->|H3]; [simpl; now rewrite IH|].
  destruct (Ascii.eqb_spec c "013") as [->|H4]; [simpl; now rewrite IH|].
  cbn [append js_string_body].
  apply Ascii.eqb_neq in H1, H2, H3, H4.
  rewrite H1, H2, H3, H4, IH. reflexivity.
Qed.

Lemma js_assigned_value_escape (T : string) :
  js_assigned_value ("this.value='" +:+ javascript_escape T +:+ "'") = Some T.
Proof.
  unfold js_assigned_value.
  rewrite strip_prefix_append, js_string_body_escape. reflexivity.
Qed.

(** *** Replacing a token *)

Lemma prefix_empty_r (old : string) :
  old <> "" -> String.prefix old "" = false.
Proof. destruct old; [congruence | reflexivity]. Qed.

Lemma prefix_cons (a c : ascii) (old s : string) :
  String.prefix (String a old) (String c s) = true ->
  a = c /\ String.prefix old s = true.
Proof.
  simpl. destruct (ascii_dec a c); [auto | discriminate].
Qed.

Lemma prefix_split (old s : string) :
  String.prefix old s = true ->
  s = old +:+ string_drop (String.length old) s.
Proof.
  revert s. induction old as [|a old IH]; intros s H; [reflexivity|].
  destruct s as [|c s]; [discriminate|].
  apply prefix_cons in H as [-> H]. simpl. f_equal. apply IH, H.
Qed.

Lemma prefix_append_r (old a t : string) :
  String.prefix old a = true -> String.prefix old (a +:+ t) = true.
Proof.
  revert a. induction old as [|x old IH]; intros a H;
    [now destruct (a +:+ t)|].
  destruct a as [|c a]; [discriminate|].
  apply prefix_cons in H as [-> H]. simpl.
  destruct (ascii_dec c c); [apply IH, H | congruence].
Qed.

Lemma split_from_nonempty (old : string) (k : nat) (s : string) :
  split_from old k s <> [].
Proof.
  revert k. induction s as [|c s IH]; intros k; [discriminate|].
  cbn [split_from]. destruct k; [|apply IH].
  destruct (String.prefix old (String c s)); [discriminate|].
  destruct (split_from old 0 s); discriminate.
Qed.

(** Joining the pieces with the token gives the text back. *)
Lemma join_split_from (old : string) (k : nat) (s : string) :
  old <> "" -> join old (split_from old k s) = string_drop k s.
Proof.
  intros Hne. revert k. induction s as [|c s IH]; intros k.
  - destruct k; reflexivity.
  - cbn [split_from]. destruct k as [|k]; [|apply IH].
    destruct (String.prefix old (String c s)) eqn:Hp.
    + pose proof (split_from_nonempty old (String.length old - 1) s) as Hn.
      destruct (split_from old (String.length old - 1) s) as [|p ps] eqn:Hs;
        [congruence|].
      rewrite join_cons_cons, <- Hs, IH. simpl string_drop.
      apply prefix_split in Hp. destruct old as [|a old]; [congruence|].
      simpl in Hp. simpl. rewrite Nat.sub_0_r. symmetry. exact Hp.
    + pose proof (split_from_nonempty old 0 s) as Hn.
      destruct (split_from old 0 s) as [|p ps] eqn:Hs; [congruence|].
      rewrite join_cons_char, <- Hs, IH. reflexivity.
Qed.

(** Replacing is joining the same pieces with the new text. *)
Lemma replace_from_join (old new : string) (k : nat) (s : string) :
  replace_from old new k s = join new (split_from old k s).
Proof.
  revert k. induction s as [|c s IH]; intros k.
  - destruct k; reflexivity.
  - cbn [split_from replace_from]. destruct k as [|k]; [|apply IH].
    destruct (String.prefix old (String c s)).
    + pose proof (split_from_nonempty old (String.length old - 1) s) as Hn.
      destruct (split_from old (String.length old - 1) s) as [|p ps] eqn:Hs;
        [congruence|].
      rewrite join_cons_cons, <- Hs, IH. reflexivity.
    + pose proof (split_from_nonempty old 0 s) as Hn.
      destruct (split_from old 0 s) as [|p ps] eqn:Hs; [congruence|].
      rewrite join_cons_char, <- Hs, IH. reflexivity.
Qed.

Lemma contains_cons_false (old : string) (c : ascii) (s : string) :
  contains old (String c s) = false ->
  String.prefix old (String c s) = false /\ contains old s = false.
Proof. simpl. apply orb_false_elim. Qed.

(** No piece holds the token. *)
Lemma split_from_free (old : string) (k : nat) (s : string) :
  old <> "" ->
  Forall (fun p => contains old p = false) (split_from old k s).
Proof.
  intros Hne. revert k. induction s as [|c s IH]; intros k.
  - constructor; [|constructor]. simpl. now apply prefix_empty_r.
  - cbn [split_from]. destruct k as [|k]; [|apply IH].
    destruct (String.prefix old (String c s)) eqn:Hp.
    + constructor; [|apply IH]. simpl. now apply prefix_empty_r.
    + pose proof (split_from_nonempty old 0 s) as Hn.
      pose proof (join_split_from old 0 s Hne) as Hj.
      specialize (IH 0).
      destruct (split_from old 0 s) as [|p ps]; [congruence|].
      inversion IH as [|? ? Hhd Htl]; subst.
      constructor; [|exact Htl].
      cbn [contains]. rewrite Hhd, orb_false_r.
      destruct (String.prefix old (String c p)) eqn:Hq; [|reflexivity].
      exfalso. simpl string_drop in Hj.
      assert (Hs : exists t, s = p +:+ t).
      { destruct ps as [|q ps]; [exists ""; now rewrite append_empty_r|].
        rewrite join_cons_cons in Hj. eauto. }
      destruct Hs as [t ->].
      apply (prefix_append_r _ _ t) in Hq. simpl in Hq, Hp. congruence.
Qed.

(** A text without the token is left as it is. *)
Lemma replace_from_absent (old new s : string) :
  contains old s = false -> replace_from old new 0 s = s.
Proof.
  induction s as [|c s IH]; intros H; [reflexivity|].
  apply contains_cons_false in H as [Hp Hc].
  cbn [replace_from]. rewrite Hp, IH; auto.
Qed.

(** ** Cleanup *)

Ltac run :=
  unfold _editor_cleanup, on_editor_error, except_PermissionError,
    messages_getitem, os_close, os_remove, read_lines_joined, read_whole,
    evaluateJavaScript, isNull, bind, emit, ret, raise;
  simpl.

Lemma not_elem_of_remove (h : nat) (s : gset nat) : h ∉ s ∖ {[h]}.
Proof.
  intros [_ Hn]%elem_of_difference. apply Hn, elem_of_singleton. reflexivity.
Qed.

(** On a handle that is not open, cleanup stops at [os.close]. *)
Lemma editor_cleanup_closed_handle (h : nat) (f : string) (w : World) :
  h ∉ open_fds w ->
  _editor_cleanup h f w = (Raise (OSError "EBADF"), log (COsClose h) w).
Proof.
  intros H. run. rewrite bool_decide_eq_false_2 by exact H. reflexivity.
Qed.

(** Whatever its outcome, cleanup leaves the handle closed. *)
Lemma editor_cleanup_closes (h : nat) (f : string) (w : World) :
  h ∉ open_fds (snd (_editor_cleanup h f w)).
Proof.
  run. destruct (decide (h ∈ open_fds w)) as [Hh|Hh].
  - rewrite bool_decide_eq_true_2 by exact Hh. simpl.
    destruct (fs w !! f); simpl; [|apply not_elem_of_remove].
    destruct (bool_decide (f ∈ undeletable w)); simpl;
      apply not_elem_of_remove.
  - rewrite bool_decide_eq_false_2 by exact Hh. exact Hh.
Qed.

(** With the handle open and the file present and deletable, cleanup
    closes the one and deletes the other. *)
Lemma editor_cleanup_ok (h : nat) (f c : string) (w : World) :
  h ∈ open_fds w -> fs w !! f = Some c -> f ∉ undeletable w ->
  _editor_cleanup h f w =
  (Ok tt,
   mkWorld (delete f (fs w)) (open_fds w ∖ {[h]}) (undeletable w)
           (disk_full w) (tmp_names w) (elements w) (focus w)
           (cfg_editor w) (js_other w) (trace w ++ [COsClose h; COsRemove f])).
Proof.
  intros Hh Hf Hd. run.
  rewrite bool_decide_eq_true_2 by exact Hh. simpl. rewrite Hf.
  rewrite bool_decide_eq_false_2 by exact Hd.
  unfold set_fs, log; simpl. rewrite <- app_assoc. reflexivity.
Qed.

(** With the handle open and the file present but not deletable, cleanup
    closes the handle and raises its own error; the file stays. *)
Lemma editor_cleanup_denied (h : nat) (f c : string) (w : World) :
  h ∈ open_fds w -> fs w !! f = Some c -> f ∈ undeletable w ->
  _editor_cleanup h f w =
  (Raise (CommandError "Failed to delete tempfile..."),
   mkWorld (fs w) (open_fds w ∖ {[h]}) (undeletable w)
           (disk_full w) (tmp_names w) (elements w) (focus w)
           (cfg_editor w) (js_other w) (trace w ++ [COsClose h; COsRemove f])).
Proof.
  intros Hh Hf Hd. run.
  rewrite bool_decide_eq_true_2 by exact Hh. simpl. rewrite Hf.
  rewrite bool_decide_eq_true_2 by exact Hd.
  unfold log; simpl. rewrite <- app_assoc. reflexivity.
Qed.


(** C3 as stated fails.  After a first, completed [_editor_cleanup] on
    descriptor 1 and [/tmp/tmpq1], a second call on the same descriptor and
    name is no no-op: it calls [os.close] on the closed descriptor again
    and that raises [OSError]. *)
Lemma editor_cleanup_second_call_raises :
  _editor_cleanup 1 "/tmp/tmpq1" running_world = (Ok tt, cleaned_world) /\
  fst (_editor_cleanup 1 "/tmp/tmpq1" cleaned_world) = Raise (OSError "EBADF") /\
  trace (snd (_editor_cleanup 1 "/tmp/tmpq1" cleaned_world))
  = trace cleaned_world ++ [COsClose 1].
Proof. repeat split; vm_compute; reflexivity. Qed.

(** C3, amended: [_editor_cleanup] has no guard against a second call.
    Called again on the same handle and file name, right after a first
    call, it issues [os.close] on the handle once more; the handle is
    closed by then, so the call raises [OSError] (EBADF), before any
    second deletion is attempted and without any change to the file
    system or the descriptor table. *)
Theorem editor_cleanup_twice (h : nat) (f : string) (w : World) :
  let w1 := snd (_editor_cleanup h f w) in
  _editor_cleanup h f w1 = (Raise (OSError "EBADF"), log (COsClose h) w1).
Proof.
  intros w1. apply editor_cleanup_closed_handle, editor_cleanup_closes.
Qed.

(** [on_editor_error] in terms of [_editor_cleanup]. *)
Lemma on_editor_error_body (h : nat) (f : string) (error : Z) (w : World) :
  snd (on_editor_error h f error w) = snd (_editor_cleanup h f w) /\
  fst (on_editor_error h f error w) =
    match fst (_editor_cleanup h f w) with
    | Raise e => Raise e
    | Ok _ =>
        match messages !! error with
        | Some m => Raise (CommandError ("Error while calling editor: " +:+ m))
        | None => Raise (KeyError error)
        end
    end.
Proof.
  unfold on_editor_error, bind at 1 3.
  destruct (_editor_cleanup h f w) as [[[]|e] w']; [|split; reflexivity].
  unfold messages_getitem, bind.
  destruct (messages !! error); split; reflexivity.
Qed.



(** C10: joining the lines that [readlines] returns gives the text of the
    file back, character for character, for every text including the empty
    one; so the read-back step of [on_editor_closed] is the same
    computation as reading the whole file as one string. *)
Theorem read_lines_joined_is_read_whole :
  (forall content : string, join "" (readlines content) = content) /\
  (forall (filename : string) (w : World),
     read_lines_joined filename w = read_whole filename w).
Proof.
  split; [exact join_readlines|].
  intros filename w. run.
  destruct (fs w !! filename) as [content|]; [|reflexivity].
  destruct (utf8_decode content); [rewrite join_readlines|]; reflexivity.
Qed.

(** C4: when the frame has no focused editable element, [editor] raises
    "No editable element focused!" and the world is as before: no file
    was created, no descriptor opened, no process started, no call made. *)
Theorem editor_no_element_focused (w : World) :
  fst (findFirstElement_editable_focused w) = Ok None ->
  editor w = (Raise (CommandError "No editable element focused!"), w).
Proof.
  unfold editor, findFirstElement_editable_focused, bind. intros H.
  destruct (focus w) as [i|]; [|reflexivity].
  destruct (elements w !! i); [discriminate | reflexivity].
Qed.

Lemma editor_no_element_focused_witness :
  fst (findFirstElement_editable_focused unfocused_world) = Ok None /\
  editor unfocused_world
  = (Raise (CommandError "No editable element focused!"), unfocused_world).
Proof.
  split; [reflexivity | apply editor_no_element_focused; reflexivity].
Defined.

(** ** The exit callback *)

(** A non-zero exit code ends [on_editor_closed] at its first test. *)
Lemma on_editor_closed_nonzero (esc : string -> string) (elem : Elem)
    (h : nat) (f : string) (code : Z) (st : ExitStatus) (w : World) :
  code <> 0%Z ->
  on_editor_closed esc elem h f code st w
  = (Raise (CommandError
              ("Editor did quit abnormally (status " +:+ pretty code +:+ ")!")),
     w).
Proof.
  intros H. unfold on_editor_closed.
  destruct (Z.eqb_spec code 0) as [E|_]; [contradiction | reflexivity].
Qed.

(** The path of [on_editor_closed] that writes back. *)
Lemma on_editor_closed_write_back (esc : string -> string) (i h : nat)
    (f T old : string) (w : World) :
  elements w !! i = Some old -> fs w !! f = Some T -> utf8_valid T = true ->
  on_editor_closed esc (Some i) h f 0 NormalExit w
  = _editor_cleanup h f
      (snd (evaluateJavaScript (Some i)
              ("this.value='" +:+ esc (universal_newlines T) +:+ "'")
              (log (COpenRead f) w))).
Proof.
  intros Hi Hf Hv. unfold on_editor_closed. simpl negb. cbv iota.
  unfold isNull, read_lines_joined, utf8_decode, bind at 1 2 3, emit. simpl.
  rewrite Hi, Hf, Hv, join_readlines.
  unfold bind at 1.
  destruct (evaluateJavaScript _ _ _) as [[[]|e] w'] eqn:E; [reflexivity|].
  exfalso. revert E. unfold evaluateJavaScript, bind, emit. simpl.
  rewrite Hi. destruct (js_assigned_value _); discriminate.
Qed.

Lemma editor_cleanup_elements (h : nat) (f : string) (w : World) :
  elements (snd (_editor_cleanup h f w)) = elements w.
Proof.
  run. destruct (bool_decide (h ∈ open_fds w)); [|reflexivity]. simpl.
  destruct (fs w !! f); [|reflexivity].
  destruct (bool_decide (f ∈ undeletable w)); reflexivity.
Qed.

Lemma editor_cleanup_trace (h : nat) (f : string) (w : World) :
  exists t, trace (snd (_editor_cleanup h f w)) = trace w ++ t.
Proof.
  run. destruct (bool_decide (h ∈ open_fds w)); simpl; [|eauto].
  destruct (fs w !! f); simpl;
    [destruct (bool_decide (f ∈ undeletable w)); simpl|];
    rewrite <- app_assoc; eauto.
Qed.

(** A script that assigns a literal sets the value of a live node. *)
Lemma evaluateJavaScript_assign (i : nat) (script v old : string) (w : World) :
  js_assigned_value script = Some v -> elements w !! i = Some old ->
  evaluateJavaScript (Some i) script w
  = (Ok tt,
     mkWorld (fs w) (open_fds w) (undeletable w) (disk_full w) (tmp_names w)
             (<[i := v]> (elements w)) (focus w) (cfg_editor w) (js_other w)
             (trace w ++ [CEvaluateJavaScript (Some i) script])).
Proof.
  intros Hs Hi. unfold evaluateJavaScript, bind, emit. simpl.
  rewrite Hs, Hi. reflexivity.
Qed.

(** C1 does not hold of the code.  A session whose editor exits with
    code 2 ends in [on_editor_closed] raising "Editor did quit abnormally
    (status 2)!" before [_editor_cleanup] is reached, and a session whose
    element has vanished ends in "Element vanished while editing!" in the
    same way: the world is left as it was, with the temp file in place,
    its descriptor open and [os.remove] never called. *)
Theorem on_editor_closed_leaves_tempfile (esc : string -> string) :
  deliver esc (Some 7) 1 "/tmp/tmpq1" [SigFinished 2 NormalExit] running_world
  = ([CommandError "Editor did quit abnormally (status 2)!"], running_world) /\
  deliver esc (Some 7) 1 "/tmp/tmpq1" [SigFinished 0 NormalExit] vanished_world
  = ([CommandError "Element vanished while editing!"], vanished_world) /\
  fs running_world !! "/tmp/tmpq1" = Some "hello" /\
  fs vanished_world !! "/tmp/tmpq1" = Some "hello" /\
  bool_decide (1 ∈ open_fds running_world) = true /\
  count_call (COsRemove "/tmp/tmpq1") (trace running_world) = 0.
Proof. repeat split; vm_compute; reflexivity. Qed.

(** C2 does not hold of the code.  A crash is signalled with exit code
    11: after [on_editor_error] has reported it, [on_editor_closed] raises
    a second error, "Editor did quit abnormally (status 11)!", because the
    exit code is tested before the exit status; the comment in the code,
    "No error here, since we already handle this in on_editor_error",
    says otherwise.  The callback runs no cleanup of its own: the world is
    as [on_editor_error] left it. *)
Lemma on_editor_closed_crash_nonzero_raises :
  deliver javascript_escape (Some 7) 1 "/tmp/tmpq1"
    [SigError Crashed; SigFinished 11 CrashExit] running_world
  = ([CommandError "Error while calling editor: The process crashed.";
      CommandError "Editor did quit abnormally (status 11)!"],
     crashed_world) /\
  on_editor_closed javascript_escape (Some 7) 1 "/tmp/tmpq1" 11 CrashExit
    crashed_world
  = (Raise (CommandError "Editor did quit abnormally (status 11)!"),
     crashed_world).
Proof. split; vm_compute; reflexivity. Qed.

(** A crash with exit code 0, where the code does what its comment says:
    [on_editor_closed] raises nothing and does nothing, it makes no call
    and leaves the world as it is.  Cleanup for a crash is the work of
    [on_editor_error]: when the crash is signalled to the error callback
    and then to the exit callback with code 0, the user sees the one
    message "The process crashed." and the handle is closed and the file
    deleted once, by the error callback. *)
Theorem on_editor_closed_crash_exit0 (esc : string -> string) (elem : Elem)
    (h : nat) (f : string) (w : World) :
  on_editor_closed esc elem h f 0 CrashExit w = (Ok tt, w) /\
  (forall c, h ∈ open_fds w -> fs w !! f = Some c -> f ∉ undeletable w ->
     let r := deliver esc elem h f
                [SigError Crashed; SigFinished 0 CrashExit] w in
     fst r = [CommandError "Error while calling editor: The process crashed."] /\
     fs (snd r) !! f = None /\
     (h ∉ open_fds (snd r)) /\
     trace (snd r) = trace w ++ [COsClose h; COsRemove f]).
Proof.
  split; [reflexivity|].
  intros c Hh Hf Hd.
  destruct (on_editor_error_body h f Crashed w) as [Hsnd Hfst].
  cbn [deliver slot].
  destruct (on_editor_error h f Crashed w) as [[[]|e] w'] eqn:E;
    simpl in Hsnd, Hfst;
    rewrite (editor_cleanup_ok h f c w Hh Hf Hd) in Hsnd, Hfst;
    simpl in Hsnd, Hfst; [discriminate|].
  injection Hfst as ->. subst w'. simpl. repeat split.
  - apply lookup_delete_eq.
  - apply not_elem_of_remove.
Qed.

Lemma on_editor_closed_crash_exit0_witness :
  on_editor_closed javascript_escape (Some 7) 1 "/tmp/tmpq1" 0 CrashExit
    running_world = (Ok tt, running_world) /\
  fst (deliver javascript_escape (Some 7) 1 "/tmp/tmpq1"
         [SigError Crashed; SigFinished 0 CrashExit] running_world)
  = [CommandError "Error while calling editor: The process crashed."].
Proof.
  destruct (on_editor_closed_crash_exit0 javascript_escape (Some 7) 1
              "/tmp/tmpq1" running_world) as [H0 Hs].
  split; [exact H0|].
  destruct (Hs "hello") as [Hr _]; [compute_done | reflexivity | compute_done |].
  exact Hr.
Defined.

(** C5 as stated fails.  The temp file holds [a], a carriage return and
    [b] when the editor exits: reading it in text mode turns the carriage
    return into a line feed, and the element's value afterwards is [a], a
    line feed and [b], not the content of the file. *)
Lemma on_editor_closed_translates_newlines :
  fs cr_world !! "/tmp/tmpq1" = Some (String "a" (String "013" "b")) /\
  elements (snd (on_editor_closed javascript_escape (Some 7) 1 "/tmp/tmpq1"
                   0 NormalExit cr_world)) !! 7
  = Some (String "a" (String "010" "b")).
Proof. split; vm_compute; reflexivity. Qed.

Lemma universal_newlines_no_cr (s : string) :
  has_cr s = false -> universal_newlines s = s.
Proof.
  induction s as [|c s IH]; [reflexivity|].
  cbn [has_cr universal_newlines]. intros H.
  apply orb_false_elim in H as [Hc Hs]. rewrite Hc, (IH Hs). reflexivity.
Qed.

(** C5, amended: whatever valid UTF-8 text [T] the temp file holds when
    the editor exits with code 0, [on_editor_closed] reads it with the
    line endings translated (carriage return plus line feed, and a
    carriage return alone, become a line feed), escapes what it read and
    injects it as [this.value='...'], and the element's value afterwards
    is exactly the text read; that is [T] itself when [T] holds no
    carriage return.  This covers the empty text and texts with quotes,
    backslashes and newlines.  The escape function is the one modelled
    from the spec. *)
Theorem on_editor_closed_round_trip (T old : string) (i h : nat)
    (f : string) (w : World) :
  elements w !! i = Some old -> fs w !! f = Some T -> utf8_valid T = true ->
  let r := on_editor_closed javascript_escape (Some i) h f 0 NormalExit w in
  elements (snd r) !! i = Some (universal_newlines T) /\
  In (CEvaluateJavaScript (Some i)
        ("this.value='" +:+ javascript_escape (universal_newlines T) +:+ "'"))
     (trace (snd r)) /\
  (has_cr T = false -> elements (snd r) !! i = Some T).
Proof.
  intros Hi Hf Hv r. subst r.
  rewrite (on_editor_closed_write_back _ i h f T old w Hi Hf Hv).
  rewrite (evaluateJavaScript_assign i _ (universal_newlines T) old
             (log (COpenRead f) w)
             (js_assigned_value_escape (universal_newlines T)) Hi).
  cbn [snd].
  assert (Hval : elements
            (snd (_editor_cleanup h f
               (mkWorld (fs w) (open_fds w) (undeletable w) (disk_full w)
                  (tmp_names w) (<[i := universal_newlines T]> (elements w))
                  (focus w) (cfg_editor w) (js_other w)
                  ((trace w ++ [COpenRead f]) ++
                   [CEvaluateJavaScript (Some i)
                      ("this.value='" +:+
                       javascript_escape (universal_newlines T) +:+ "'")]))))
            !! i = Some (universal_newlines T)).
  { rewrite editor_cleanup_elements. simpl. apply lookup_insert_eq. }
  split; [exact Hval|]. split.
  - destruct (editor_cleanup_trace h f
                (mkWorld (fs w) (open_fds w) (undeletable w) (disk_full w)
                   (tmp_names w) (<[i := universal_newlines T]> (elements w))
                   (focus w) (cfg_editor w) (js_other w)
                   ((trace w ++ [COpenRead f]) ++
                    [CEvaluateJavaScript (Some i)
                       ("this.value='" +:+
                        javascript_escape (universal_newlines T) +:+ "'")])))
      as [t Ht].
    simpl in Ht |- *. rewrite Ht.
    apply in_or_app. left. apply in_or_app. right. left. reflexivity.
  - intros Hcr. simpl in Hval |- *. rewrite Hval.
    now rewrite (universal_newlines_no_cr T Hcr).
Qed.

Lemma on_editor_closed_round_trip_witness :
  elements edited_world !! 7 = Some "hello" /\
  fs edited_world !! "/tmp/tmpq1" = Some "it's" /\
  utf8_valid "it's" = true /\
  elements (snd (on_editor_closed javascript_escape (Some 7) 1 "/tmp/tmpq1"
                   0 NormalExit edited_world)) !! 7 = Some "it's".
Proof.
  split; [reflexivity|]. split; [reflexivity|]. split; [reflexivity|].
  apply (on_editor_closed_round_trip "it's" "hello" 7 1 "/tmp/tmpq1"
           edited_world); reflexivity.
Defined.

(** C7 as stated fails.  The OS refuses to delete the temp file and the
    process has crashed: [on_editor_error] raises "Failed to delete
    tempfile..." out of the cleanup that it runs first, and the process
    error is never reported. *)
Lemma on_editor_error_cleanup_failure_hides_report :
  deliver javascript_escape (Some 7) 1 "/tmp/tmpq1" [SigError Crashed]
    locked_world
  = ([CommandError "Failed to delete tempfile..."],
     snd (_editor_cleanup 1 "/tmp/tmpq1" locked_world)) /\
  fst (on_editor_error 1 "/tmp/tmpq1" Crashed running_world)
  = Raise (CommandError "Error while calling editor: The process crashed.").
Proof. split; vm_compute; reflexivity. Qed.

(** [evaluateJavaScript] right after the read was recorded: it returns,
    records its own call and changes the nodes as it would have before. *)
Lemma evaluateJavaScript_after_log (elem : Elem) (script : string) (c : call)
    (w : World) :
  evaluateJavaScript elem script (log c w)
  = (Ok tt,
     mkWorld (fs w) (open_fds w) (undeletable w) (disk_full w) (tmp_names w)
             (elements (snd (evaluateJavaScript elem script w)))
             (focus w) (cfg_editor w) (js_other w)
             ((trace w ++ [c]) ++ [CEvaluateJavaScript elem script])).
Proof.
  unfold evaluateJavaScript, bind, emit. simpl.
  destruct elem as [i|]; [|reflexivity].
  destruct (elements w !! i); [|reflexivity].
  destruct (js_assigned_value script); reflexivity.
Qed.

(** C7, amended: when the OS denies the deletion of the temp file, on the
    success path of [on_editor_closed] the error "Failed to delete
    tempfile..." is raised after the text has been written into the
    element, and the written value stays; in [on_editor_error] cleanup
    runs before the process error would be reported, so the same error is
    raised in its place, for every error value, and no process-error
    message is produced.  In both the file stays and the handle is
    closed. *)
Theorem cleanup_denied_outcomes (esc : string -> string) (h : nat)
    (f T : string) (w : World) :
  h ∈ open_fds w -> fs w !! f = Some T -> f ∈ undeletable w ->
  (forall (i : nat) (old : string),
     elements w !! i = Some old -> utf8_valid T = true ->
     let script := "this.value='" +:+ esc (universal_newlines T) +:+ "'" in
     let closed := on_editor_closed esc (Some i) h f 0 NormalExit w in
     fst closed = Raise (CommandError "Failed to delete tempfile...") /\
     trace (snd closed)
     = trace w ++ [COpenRead f; CEvaluateJavaScript (Some i) script;
                   COsClose h; COsRemove f] /\
     elements (snd closed)
     = elements (snd (evaluateJavaScript (Some i) script w)) /\
     fs (snd closed) !! f = Some T /\
     (h ∉ open_fds (snd closed))) /\
  (forall error : Z,
     fst (on_editor_error h f error w)
     = Raise (CommandError "Failed to delete tempfile...") /\
     trace (snd (on_editor_error h f error w))
     = trace w ++ [COsClose h; COsRemove f] /\
     fs (snd (on_editor_error h f error w)) !! f = Some T /\
     (h ∉ open_fds (snd (on_editor_error h f error w)))).
Proof.
  intros Hh Hf Hd. split.
  - intros i old Hi Hv script closed. subst closed.
    rewrite (on_editor_closed_write_back esc i h f T old w Hi Hf Hv).
    fold script. rewrite evaluateJavaScript_after_log. cbn [snd].
    match goal with
    | |- context [_editor_cleanup h f ?w1] =>
        rewrite (editor_cleanup_denied h f T w1 Hh Hf Hd)
    end.
    simpl. repeat split.
    + rewrite <- !app_assoc. reflexivity.
    + exact Hf.
    + apply not_elem_of_remove.
  - intros error.
    destruct (on_editor_error_body h f error w) as [-> ->].
    rewrite (editor_cleanup_denied h f T w Hh Hf Hd). simpl.
    repeat split; [exact Hf | apply not_elem_of_remove].
Qed.

Lemma cleanup_denied_outcomes_witness :
  fst (on_editor_closed javascript_escape (Some 7) 1 "/tmp/tmpq1" 0
         NormalExit locked_world)
  = Raise (CommandError "Failed to delete tempfile...") /\
  bool_decide
    (1 ∈ open_fds (snd (on_editor_closed javascript_escape (Some 7) 1
                          "/tmp/tmpq1" 0 NormalExit locked_world))) = false /\
  fst (on_editor_error 1 "/tmp/tmpq1" Crashed locked_world)
  = Raise (CommandError "Failed to delete tempfile...") /\
  bool_decide
    (1 ∈ open_fds (snd (on_editor_error 1 "/tmp/tmpq1" Crashed locked_world)))
  = false.
Proof.
  destruct (cleanup_denied_outcomes javascript_escape 1 "/tmp/tmpq1"
              "hello" locked_world) as [Hclosed Herror];
    [compute_done | reflexivity | compute_done |].
  destruct (Hclosed 7 "hello") as (Hc & _ & _ & _ & Hfd);
    [reflexivity | reflexivity |].
  destruct (Herror Crashed) as (He & _ & _ & Hfd').
  split; [exact Hc|]. split; [apply bool_decide_eq_false_2, Hfd|].
  split; [exact He | apply bool_decide_eq_false_2, Hfd'].
Defined.

(** ** Starting the editor *)

Ltac run_editor :=
  unfold editor, findFirstElement_editable_focused, isNull, mkstemp,
    evaluate_this_value, write_text, config_get_editor, index0,
    bind, emit, ret, raise.

Ltac editor_prelude Hfo Hel Hfu :=
  run_editor; rewrite Hfo, Hel; cbn beta iota; rewrite Hel; cbn beta iota;
  rewrite Hfu; cbn beta iota;
  unfold log, set_open_fds, set_fs, set_tmp_names;
  cbn [fs open_fds undeletable disk_full tmp_names elements focus
       cfg_editor js_other trace fst snd];
  rewrite Hel; cbn [default from_option id].

(** Every argument is the template with the token replaced. *)
Lemma substituted_str_replace (filename arg : string) :
  substituted filename arg (str_replace "{}" filename arg).
Proof.
  assert (Hne : "{}" <> "") by discriminate.
  change (str_replace "{}" filename arg) with (replace_from "{}" filename 0 arg).
  split.
  - apply replace_from_absent.
  - exists (split_from "{}" 0 arg). split; [|split].
    + apply (join_split_from "{}" 0 arg Hne).
    + apply split_from_free, Hne.
    + apply replace_from_join.
Qed.

Lemma substituted_editor_args (filename executable : string)
    (templates : list string) :
  Forall2 (substituted filename) templates
          (editor_args (executable :: templates) filename).
Proof.
  unfold editor_args. cbn [tail].
  induction templates as [|arg l IH]; constructor;
    [apply substituted_str_replace | exact IH].
Qed.

Lemma last_app3 (l : list call) (a b c : call) :
  last (l ++ [a; b; c]) = Some c.
Proof.
  change (l ++ [a; b; c]) with (l ++ [a; b] ++ [c]).
  rewrite app_assoc. apply last_snoc.
Qed.

(** [editor] on a focused element, up to the start of the process. *)
Lemma editor_started (w : World) (i : nat) (v filename executable : string)
    (rest templates : list string) :
  focus w = Some i -> elements w !! i = Some v ->
  first_unused (fs w) (tmp_names w) = Some (filename, rest) ->
  truthy v = false \/ disk_full w = false ->
  cfg_editor w = executable :: templates ->
  exists w',
    editor w = (Ok tt, w') /\
    fs w' !! filename = Some v /\
    trace w'
    = trace w ++ [CMkstemp (fresh (open_fds w)) filename; CGetValue (Some i)]
      ++ (if truthy v then [COpenWrite filename] else [])
      ++ [CConnectFinished (Some i) (fresh (open_fds w)) filename;
          CConnectError (fresh (open_fds w)) filename;
          CProcStart executable
            (editor_args (executable :: templates) filename)].
Proof.
  intros Hfo Hel Hfu Hw Hcfg. editor_prelude Hfo Hel Hfu.
  destruct v as [|c v]; simpl.
  - rewrite Hcfg. simpl. eexists. split; [reflexivity|]. simpl.
    split; [apply lookup_insert_eq|]. rewrite <- !app_assoc. reflexivity.
  - destruct Hw as [Hw|Hw]; [discriminate|]. rewrite Hw, Hcfg. simpl.
    eexists. split; [reflexivity|]. simpl.
    split; [apply lookup_insert_eq|]. rewrite <- !app_assoc. reflexivity.
Qed.

(** C8: when [editor] starts the process, the arguments it passes are the
    configured arguments after the executable, each with every
    occurrence of [{}] replaced by the path of the temp file: an argument
    is pieces free of [{}] with [{}] between them, and what is passed is
    the same pieces with the path between them; an argument without
    [{}] is passed as it is. *)
Theorem editor_substitutes_placeholder (w : World) (i : nat)
    (v filename executable : string) (rest templates : list string) :
  focus w = Some i -> elements w !! i = Some v ->
  first_unused (fs w) (tmp_names w) = Some (filename, rest) ->
  truthy v = false \/ disk_full w = false ->
  cfg_editor w = executable :: templates ->
  exists (w' : World) (args : list string),
    editor w = (Ok tt, w') /\
    last (trace w') = Some (CProcStart executable args) /\
    args = map (str_replace "{}" filename) templates /\
    Forall2 (substituted filename) templates args.
Proof.
  intros Hfo Hel Hfu Hw Hcfg.
  destruct (editor_started w i v filename executable rest templates
              Hfo Hel Hfu Hw Hcfg) as (w' & He & _ & Ht).
  exists w', (editor_args (executable :: templates) filename).
  split; [exact He|]. split; [|split].
  - rewrite Ht, !app_assoc. apply last_app3.
  - reflexivity.
  - apply substituted_editor_args.
Qed.

Lemma editor_substitutes_placeholder_witness :
  exists w' : World,
    editor sample_world = (Ok tt, w') /\
    last (trace w') = Some (CProcStart "gvim" ["-f"; "/tmp/tmpq1"]).
Proof.
  destruct (editor_substitutes_placeholder sample_world 7 "hello"
              "/tmp/tmpq1" "gvim" ["/tmp/tmpq2"] ["-f"; "{}"])
    as (w' & args & He & Hl & -> & _);
    [reflexivity | reflexivity | reflexivity | right; reflexivity
    | reflexivity |].
  exists w'. split; [exact He | exact Hl].
Defined.

(** C6 as stated fails.  On a full disk the write of the element's text
    raises [OSError] out of [editor] as it is, not as the command error of
    a temp file, and descriptor 1, which [mkstemp] returned, is still
    open afterwards. *)
Lemma editor_write_failure_leaks_descriptor :
  fst (editor full_disk_world) = Raise (OSError "ENOSPC") /\
  bool_decide (1 ∈ open_fds (snd (editor full_disk_world))) = true /\
  bool_decide (1 ∈ open_fds full_disk_world) = false /\
  trace (snd (editor full_disk_world))
  = [CMkstemp 1 "/tmp/tmpq1"; CGetValue (Some 7); COpenWrite "/tmp/tmpq1"].
Proof. repeat split; vm_compute; reflexivity. Qed.

(** C6, amended: when the element's text is not empty, [editor] writes it
    to the temp file; if that write fails, the exception leaves [editor]
    unchanged, the descriptor that [mkstemp] returned stays open and the
    temp file stays on disk, no callback is connected and no process is
    started. *)
Theorem editor_write_failure (w : World) (i : nat) (v filename : string)
    (rest : list string) :
  focus w = Some i -> elements w !! i = Some v -> truthy v = true ->
  first_unused (fs w) (tmp_names w) = Some (filename, rest) ->
  (disk_full w = false -> fs (snd (editor w)) !! filename = Some v) /\
  (disk_full w = true ->
     fst (editor w) = Raise (OSError "ENOSPC") /\
     fresh (open_fds w) ∈ open_fds (snd (editor w)) /\
     fs (snd (editor w)) !! filename = Some "" /\
     trace (snd (editor w))
     = trace w ++ [CMkstemp (fresh (open_fds w)) filename;
                   CGetValue (Some i); COpenWrite filename]).
Proof.
  intros Hfo Hel Hv Hfu. split; intros Hd.
  - editor_prelude Hfo Hel Hfu. rewrite Hv, Hd. simpl.
    destruct (cfg_editor w); simpl; apply lookup_insert_eq.
  - editor_prelude Hfo Hel Hfu. rewrite Hv, Hd. simpl. repeat split.
    + apply elem_of_union_l, elem_of_singleton. reflexivity.
    + apply lookup_insert_eq.
    + rewrite <- !app_assoc. reflexivity.
Qed.

Lemma editor_write_failure_witness :
  fst (editor full_disk_world) = Raise (OSError "ENOSPC") /\
  fresh (open_fds full_disk_world) ∈ open_fds (snd (editor full_disk_world)) /\
  fs (snd (editor sample_world)) !! "/tmp/tmpq1" = Some "hello".
Proof.
  destruct (editor_write_failure full_disk_world 7 "hello" "/tmp/tmpq1"
              ["/tmp/tmpq2"]) as [_ Hfull]; try reflexivity.
  destruct (editor_write_failure sample_world 7 "hello" "/tmp/tmpq1"
              ["/tmp/tmpq2"]) as [Hok _]; try reflexivity.
  destruct (Hfull eq_refl) as (Hr & Hfd & _).
  split; [exact Hr|]. split; [exact Hfd | exact (Hok eq_refl)].
Defined.

(** ** Going back and forward *)

Lemma repeat_body_add {Host : Type} (n m : nat)
    (body : Host -> result unit * Host) (h : Host) :
  repeat_body (n + m) body h
  = and_then (repeat_body n body) (repeat_body m body) h.
Proof.
  revert h. induction n as [|n IH]; intros h; [reflexivity|].
  unfold and_then in *. cbn [repeat_body Nat.add].
  destruct (body h) as [[[]|e] h']; [apply IH | reflexivity].
Qed.

Lemma for_range_add {Host : Type} (a b : Z)
    (body : Host -> result unit * Host) (h : Host) :
  (0 <= a)%Z -> (0 <= b)%Z ->
  for_range (a + b) body h = and_then (for_range a body) (for_range b body) h.
Proof.
  intros Ha Hb. unfold for_range.
  rewrite Z2Nat.inj_add by assumption. apply repeat_body_add.
Qed.

(** Going back (or forward) [a + b] pages is going [a] pages and then [b]
    pages, whatever a step does in the tab: the same steps are taken, and
    the same step fails if one fails. *)
Theorem back_forward_add {Host : Type}
    (step : Host -> result unit * Host) (a b : Z) (h : Host) :
  (0 <= a)%Z -> (0 <= b)%Z ->
  back step (a + b) h = and_then (back step a) (back step b) h /\
  forward step (a + b) h = and_then (forward step a) (forward step b) h.
Proof.
  intros Ha Hb. split; apply for_range_add; assumption.
Qed.

Lemma back_forward_add_witness :
  back counting_step (2 + 3) 0 = (Ok tt, 5) /\
  forward counting_step (8 + 4) 0 = (Raise (CommandError "limit reached"), 10).
Proof.
  destruct (back_forward_add counting_step 2 3 0) as [Hb _]; [lia | lia |].
  destruct (back_forward_add counting_step 8 4 0) as [_ Hf]; [lia | lia |].
  rewrite Hb, Hf. split; reflexivity.
Defined.

(** With a count of zero or below, [back] and [forward] take no step at
    all: the tab is not even asked for. *)
Theorem back_forward_nonpositive {Host : Type}
    (step : Host -> result unit * Host) (count : Z) (h : Host) :
  (count <= 0)%Z ->
  back step count h = (Ok tt, h) /\ forward step count h = (Ok tt, h).
Proof.
  intros Hc. unfold back, forward, for_range.
  assert (Z.to_nat count = 0) as -> by lia. split; reflexivity.
Qed.

Lemma back_forward_nonpositive_witness :
  back counting_step (-3) 10 = (Ok tt, 10) /\
  forward counting_step 0 10 = (Ok tt, 10).
Proof.
  split.
  - apply (back_forward_nonpositive counting_step (-3) 10). lia.
  - apply (back_forward_nonpositive counting_step 0 10). lia.
Defined.

(** A step that fails ends [back]: when the first [n] steps succeed and
    the next one raises, [back count] for any larger [count] raises the
    same exception from the same state, and no later step is taken. *)
Theorem back_stops_at_failure {Host : Type}
    (step : Host -> result unit * Host) (n : nat) (count : Z)
    (h h1 h2 : Host) (e : exn) :
  repeat_body n step h = (Ok tt, h1) -> step h1 = (Raise e, h2) ->
  (Z.of_nat n < count)%Z ->
  back step count h = (Raise e, h2).
Proof.
  intros Hn He Hc. unfold back, for_range.
  assert (Z.to_nat count = n + S (Z.to_nat count - S n)) as -> by lia.
  rewrite repeat_body_add. unfold and_then. rewrite Hn.
  cbn [repeat_body]. rewrite He. reflexivity.
Qed.

Lemma back_stops_at_failure_witness :
  back counting_step 5 8 = (Raise (CommandError "limit reached"), 10).
Proof.
  apply (back_stops_at_failure counting_step 2 5 8 10 10);
    [reflexivity | reflexivity | lia].
Defined.

(** ** Replacing the token, continued *)

Lemma prefix_token_one (c : ascii) : String.prefix "{}" (String c "") = false.
Proof. cbn [String.prefix]. destruct (ascii_dec "{" c); reflexivity. Qed.

Lemma prefix_token_two (c d : ascii) (r : string) :
  String.prefix "{}" (String c (String d r))
  = Ascii.eqb c "{" && Ascii.eqb d "}".
Proof.
  cbn [String.prefix]. destruct (ascii_dec "{" c) as [<-|Hc].
  - destruct (ascii_dec "}" d) as [<-|Hd].
    + now destruct r.
    + symmetry. rewrite Ascii.eqb_refl. cbn [andb].
      apply Ascii.eqb_neq. congruence.
  - symmetry. apply andb_false_intro1, Ascii.eqb_neq. congruence.
Qed.

Lemma contains_append_brace_free (new r : string) :
  brace_free new = true -> contains "{}" r = false ->
  contains "{}" (new +:+ r) = false.
Proof.
  induction new as [|c new IH]; intros Hb Hr; [exact Hr|].
  cbn [brace_free] in Hb.
  apply andb_prop in Hb as [Hc Hb]. apply andb_prop in Hc as [Hc _].
  simpl append. cbn [contains]. rewrite (IH Hb Hr), orb_false_r.
  destruct (new +:+ r) as [|d t]; [apply prefix_token_one|].
  rewrite prefix_token_two. apply negb_true_iff in Hc. now rewrite Hc.
Qed.

(** After the replacement no token is left, when the new text is not
    empty and has no brace of its own. *)
Lemma replace_from_no_token (new : string) (k : nat) (s : string) :
  new <> "" -> brace_free new = true ->
  contains "{}" (replace_from "{}" new k s) = false.
Proof.
  intros Hne Hb. revert k. induction s as [|c s IH]; intros k.
  - destruct k; reflexivity.
  - cbn [replace_from]. destruct k as [|k]; [|apply IH].
    destruct (String.prefix "{}" (String c s)) eqn:Hp.
    + apply contains_append_brace_free; [exact Hb | apply IH].
    + cbn [contains]. rewrite (IH 0), orb_false_r.
      destruct s as [|d s]; [apply prefix_token_one|].
      rewrite prefix_token_two in Hp.
      cbn [replace_from].
      destruct (String.prefix "{}" (String d s)).
      * destruct new as [|n new]; [congruence|].
        simpl append. rewrite prefix_token_two.
        cbn [brace_free] in Hb.
        apply andb_prop in Hb as [Hn _]. apply andb_prop in Hn as [_ Hn].
        apply negb_true_iff in Hn. rewrite Hn. apply andb_false_r.
      * rewrite prefix_token_two. exact Hp.
Qed.

(** No argument that [editor] passes to the process still holds the
    token [{}], when the path of the temp file is not empty and holds no
    brace; this includes templates such as [{{}}], where a replacement
    puts braces next to each other. *)
Theorem editor_args_no_token (editor : list string) (filename : string) :
  filename <> "" -> brace_free filename = true ->
  Forall (fun arg => contains "{}" arg = false) (editor_args editor filename).
Proof.
  intros Hne Hb. unfold editor_args.
  induction (tail editor) as [|arg l IH]; constructor; [|exact IH].
  apply (replace_from_no_token filename 0 arg Hne Hb).
Qed.

Lemma editor_args_no_token_witness :
  Forall (fun arg => contains "{}" arg = false)
         (editor_args ["gvim"; "{{}}"; "-f{}{}"] "/tmp/tmpq1").
Proof.
  apply editor_args_no_token; [discriminate | reflexivity].
Defined.

(** The command that [spawn] runs is the given command with every
    occurrence of [{}] replaced by the shell-escaped URL, and never by the
    URL as it is: the command is pieces free of [{}] with [{}] between
    them, and what is run is the same pieces with the escaped URL
    between them; a command without [{}] is run unchanged. *)
Theorem spawn_command_substituted (shell_escape : string -> string)
    (url cmd : string) :
  substituted (shell_escape url) cmd (spawn_command shell_escape url cmd).
Proof. apply substituted_str_replace. Qed.

Lemma spawn_command_substituted_witness :
  spawn_command (fun url => "'" +:+ url +:+ "'") "http://a.b/" "mpv --fs"
  = "mpv --fs".
Proof.
  apply (proj1 (spawn_command_substituted
                  (fun url => "'" +:+ url +:+ "'") "http://a.b/" "mpv --fs")).
  reflexivity.
Defined.

(** ** Sessions *)

Lemma first_unused_absent (files : gmap string string) (names rest : list string)
    (n : string) :
  first_unused files names = Some (n, rest) -> files !! n = None.
Proof.
  induction names as [|x names IH]; [discriminate|].
  cbn [first_unused]. destruct (files !! x) eqn:E; [exact IH|].
  intros [= <- _]. exact E.
Qed.

(** [evaluateJavaScript] returns and records the call; files and
    descriptors are not its business.  When the script is one assignment
    of a string literal, it touches at most the value of its own node. *)
Lemma evaluateJavaScript_frame (elem : Elem) (script : string) (w : World) :
  exists e' : gmap nat string,
    evaluateJavaScript elem script w
    = (Ok tt,
       mkWorld (fs w) (open_fds w) (undeletable w) (disk_full w)
               (tmp_names w) e' (focus w) (cfg_editor w) (js_other w)
               (trace w ++ [CEvaluateJavaScript elem script])) /\
    (is_Some (js_assigned_value script) ->
     (forall j : nat, elem <> Some j -> e' !! j = elements w !! j) /\
     (forall j : nat, elements w !! j = None -> e' !! j = None)).
Proof.
  unfold evaluateJavaScript, bind, emit. simpl.
  destruct elem as [i|]; [|eexists; split; [reflexivity | split; auto]].
  destruct (elements w !! i) eqn:Hi;
    [|eexists; split; [reflexivity | split; auto]].
  destruct (js_assigned_value script) as [v|].
  - eexists. split; [reflexivity|]. intros _. simpl. split.
    + intros j Hj. apply lookup_insert_ne. congruence.
    + intros j Hj. rewrite lookup_insert_ne by congruence. exact Hj.
  - eexists. split; [reflexivity|]. intros [v Hv]. discriminate.
Qed.

(** The world in which [editor] leaves a started session. *)
Lemma editor_started_state (w : World) (i : nat) (v filename executable : string)
    (rest templates : list string) :
  focus w = Some i -> elements w !! i = Some v ->
  first_unused (fs w) (tmp_names w) = Some (filename, rest) ->
  truthy v = false \/ disk_full w = false ->
  cfg_editor w = executable :: templates ->
  exists w',
    editor w = (Ok tt, w') /\
    fs w' !! filename = Some v /\
    delete filename (fs w') = fs w /\
    open_fds w' = {[fresh (open_fds w)]} ∪ open_fds w /\
    undeletable w' = undeletable w /\
    elements w' = elements w.
Proof.
  intros Hfo Hel Hfu Hw Hcfg.
  pose proof (first_unused_absent _ _ _ _ Hfu) as Habs.
  editor_prelude Hfo Hel Hfu.
  destruct v as [|c v]; simpl.
  - rewrite Hcfg. simpl. eexists. split; [reflexivity|]. simpl.
    split; [apply lookup_insert_eq|]. split; [|auto].
    apply delete_insert_id, Habs.
  - destruct Hw as [Hw|Hw]; [discriminate|]. rewrite Hw, Hcfg. simpl.
    eexists. split; [reflexivity|]. simpl.
    split; [apply lookup_insert_eq|]. split; [|auto].
    rewrite insert_insert_eq. apply delete_insert_id, Habs.
Qed.

Lemma union_fresh_remove (s : gset nat) : ({[fresh s]} ∪ s) ∖ {[fresh s]} = s.
Proof.
  apply set_eq. intros x.
  rewrite elem_of_difference, elem_of_union, elem_of_singleton.
  pose proof (is_fresh s). split; [tauto|].
  intros Hx. split; [tauto|]. intros ->. contradiction.
Qed.

(** Cleanup of a session whose handle is open and whose file is in place
    and deletable gives back the files and descriptors there were before
    the session. *)
Lemma editor_cleanup_restores (h : nat) (f T : string) (w0 w1 : World) :
  fs w1 !! f = Some T -> delete f (fs w1) = fs w0 ->
  open_fds w1 = {[fresh (open_fds w0)]} ∪ open_fds w0 ->
  h = fresh (open_fds w0) -> f ∉ undeletable w1 ->
  exists w2, _editor_cleanup h f w1 = (Ok tt, w2) /\
             fs w2 = fs w0 /\ open_fds w2 = open_fds w0 /\
             elements w2 = elements w1.
Proof.
  intros Hf Hdel Hfd -> Hu.
  assert (Hh : fresh (open_fds w0) ∈ open_fds w1).
  { rewrite Hfd. apply elem_of_union_l, elem_of_singleton. reflexivity. }
  rewrite (editor_cleanup_ok _ f T w1 Hh Hf Hu).
  eexists. split; [reflexivity|]. simpl.
  split; [exact Hdel|]. split; [|reflexivity].
  rewrite Hfd. apply union_fresh_remove.
Qed.

(** A whole session that ends well: [editor] starts the process, the
    editor program saves any valid UTF-8 text [T] in the temp file and
    exits with code 0, and [on_editor_closed] returns.  Afterwards the
    files and the open descriptors are those from before the command: the
    temp file is gone and its descriptor is closed. *)
Theorem editor_session_restores (esc : string -> string) (w : World)
    (i : nat) (v filename executable T : string)
    (rest templates : list string) :
  focus w = Some i -> elements w !! i = Some v ->
  first_unused (fs w) (tmp_names w) = Some (filename, rest) ->
  truthy v = false \/ disk_full w = false ->
  cfg_editor w = executable :: templates ->
  filename ∉ undeletable w ->
  utf8_valid T = true ->
  exists w1 w2 : World,
    editor w = (Ok tt, w1) /\
    on_editor_closed esc (Some i) (fresh (open_fds w)) filename 0 NormalExit
      (set_fs (<[filename := T]> (fs w1)) w1) = (Ok tt, w2) /\
    fs w2 = fs w /\ open_fds w2 = open_fds w.
Proof.
  intros Hfo Hel Hfu Hw Hcfg Hu Hv.
  destruct (editor_started_state w i v filename executable rest templates
              Hfo Hel Hfu Hw Hcfg) as (w1 & He & Hf1 & Hdel & Hfd & Hund & Hels).
  exists w1.
  set (w1' := set_fs (<[filename := T]> (fs w1)) w1).
  assert (Hi' : elements w1' !! i = Some v) by (simpl; now rewrite Hels).
  assert (Hf' : fs w1' !! filename = Some T) by (simpl; apply lookup_insert_eq).
  rewrite (on_editor_closed_write_back esc i _ filename T v w1' Hi' Hf' Hv).
  destruct (evaluateJavaScript_frame (Some i)
              ("this.value='" +:+ esc (universal_newlines T) +:+ "'")
              (log (COpenRead filename) w1'))
    as (e' & -> & _).
  cbn [snd].
  match goal with
  | |- context [_editor_cleanup _ _ ?wc] =>
      destruct (editor_cleanup_restores (fresh (open_fds w)) filename T w wc)
        as (w2 & Hc & Hfs & Hfds & _)
  end; simpl.
  - apply lookup_insert_eq.
  - rewrite delete_insert_eq. exact Hdel.
  - exact Hfd.
  - reflexivity.
  - rewrite Hund. exact Hu.
  - exists w2. split; [exact He|]. split; [exact Hc|]. split; assumption.
Qed.

Lemma editor_session_restores_witness :
  exists w1 w2 : World,
    editor sample_world = (Ok tt, w1) /\
    on_editor_closed javascript_escape (Some 7) (fresh (open_fds sample_world))
      "/tmp/tmpq1" 0 NormalExit
      (set_fs (<["/tmp/tmpq1" := "it's"]> (fs w1)) w1) = (Ok tt, w2) /\
    fs w2 = fs sample_world /\ open_fds w2 = open_fds sample_world.
Proof.
  apply (editor_session_restores javascript_escape sample_world 7 "hello"
           "/tmp/tmpq1" "gvim" "it's" ["/tmp/tmpq2"] ["-f"; "{}"]);
    try reflexivity; [right; reflexivity | compute_done].
Defined.

(** A whole session that ends in the error callback: after [editor], for
    whatever error value the process reports and whatever the temp file
    holds by then, [on_editor_error] raises (it never returns normally)
    and leaves the files and open descriptors as they were before the
    command. *)
Theorem editor_error_session_restores (w : World) (i : nat)
    (v filename executable T : string) (rest templates : list string)
    (error : Z) :
  focus w = Some i -> elements w !! i = Some v ->
  first_unused (fs w) (tmp_names w) = Some (filename, rest) ->
  truthy v = false \/ disk_full w = false ->
  cfg_editor w = executable :: templates ->
  filename ∉ undeletable w ->
  exists (w1 w2 : World) (e : exn),
    editor w = (Ok tt, w1) /\
    on_editor_error (fresh (open_fds w)) filename error
      (set_fs (<[filename := T]> (fs w1)) w1) = (Raise e, w2) /\
    fs w2 = fs w /\ open_fds w2 = open_fds w /\ elements w2 = elements w.
Proof.
  intros Hfo Hel Hfu Hw Hcfg Hu.
  destruct (editor_started_state w i v filename executable rest templates
              Hfo Hel Hfu Hw Hcfg) as (w1 & He & Hf1 & Hdel & Hfd & Hund & Hels).
  exists w1.
  set (w1' := set_fs (<[filename := T]> (fs w1)) w1).
  destruct (editor_cleanup_restores (fresh (open_fds w)) filename T w w1')
    as (w2 & Hc & Hfs & Hfds & Hel2); simpl.
  - apply lookup_insert_eq.
  - rewrite delete_insert_eq. exact Hdel.
  - exact Hfd.
  - reflexivity.
  - rewrite Hund. exact Hu.
  - destruct (on_editor_error_body (fresh (open_fds w)) filename error w1')
      as [Hsnd Hfst].
    rewrite Hc in Hsnd, Hfst. simpl in Hsnd, Hfst.
    destruct (on_editor_error (fresh (open_fds w)) filename error w1')
      as [r w2'] eqn:E. simpl in Hsnd, Hfst. subst w2' r.
    exists w2.
    destruct (messages !! error); eexists; (split; [exact He|]);
      (split; [reflexivity|]); (split; [exact Hfs|]);
      (split; [exact Hfds|]); rewrite Hel2; exact Hels.
Qed.

Lemma editor_error_session_restores_witness :
  exists (w1 w2 : World) (e : exn),
    editor sample_world = (Ok tt, w1) /\
    on_editor_error (fresh (open_fds sample_world)) "/tmp/tmpq1" FailedToStart
      (set_fs (<["/tmp/tmpq1" := "hello"]> (fs w1)) w1) = (Raise e, w2) /\
    fs w2 = fs sample_world /\ open_fds w2 = open_fds sample_world /\
    elements w2 = elements sample_world.
Proof.
  apply (editor_error_session_restores sample_world 7 "hello"
           "/tmp/tmpq1" "gvim" "hello" ["/tmp/tmpq2"] ["-f"; "{}"]);
    try reflexivity; [right; reflexivity | compute_done].
Defined.

(** ** What the methods leave alone *)

(** [_editor_cleanup] touches nothing but its own handle and file: every
    other descriptor is open afterwards exactly when it was before, every
    other file is as it was, the page is as it was, and no descriptor is
    opened; this holds for every outcome of the cleanup. *)
Theorem editor_cleanup_frame (h : nat) (f : string) (w : World) :
  let w' := snd (_editor_cleanup h f w) in
  (forall h' : nat, h' <> h -> (h' ∈ open_fds w' <-> h' ∈ open_fds w)) /\
  (forall f' : string, f' <> f -> fs w' !! f' = fs w !! f') /\
  (forall h' : nat, h' ∈ open_fds w' -> h' ∈ open_fds w) /\
  elements w' = elements w.
Proof.
  assert (Hrm : forall h' : nat, h' <> h ->
                  (h' ∈ open_fds w ∖ {[h]} <-> h' ∈ open_fds w)).
  { intros h' Hne. rewrite elem_of_difference, elem_of_singleton. tauto. }
  assert (Hsub : forall h' : nat, h' ∈ open_fds w ∖ {[h]} -> h' ∈ open_fds w).
  { intros h' Hin. apply elem_of_difference in Hin. tauto. }
  cbv zeta. run.
  destruct (bool_decide (h ∈ open_fds w)); simpl; [|tauto].
  destruct (fs w !! f) eqn:Hf; simpl; [|tauto].
  destruct (bool_decide (f ∈ undeletable w)); simpl; [tauto|].
  repeat split; try apply Hrm; try apply Hsub; auto.
  intros f' Hne. apply lookup_delete_ne. congruence.
Qed.

Lemma editor_cleanup_frame_witness :
  bool_decide (0 ∈ open_fds (snd (_editor_cleanup 1 "/tmp/tmpq1" running_world)))
  = true.
Proof.
  destruct (editor_cleanup_frame 1 "/tmp/tmpq1" running_world) as [Hk _].
  apply bool_decide_eq_true_2, (Hk 0); [lia | compute_done].
Defined.

(** When the temp file is no longer there, [_editor_cleanup] closes the
    handle and then fails with [FileNotFoundError]: only a permission
    error is turned into the command error. *)
Theorem editor_cleanup_missing_file (h : nat) (f : string) (w : World) :
  h ∈ open_fds w -> fs w !! f = None ->
  fst (_editor_cleanup h f w) = Raise (FileNotFoundError f) /\
  (h ∉ open_fds (snd (_editor_cleanup h f w))) /\
  fs (snd (_editor_cleanup h f w)) = fs w /\
  trace (snd (_editor_cleanup h f w)) = trace w ++ [COsClose h; COsRemove f].
Proof.
  intros Hh Hf. run. rewrite bool_decide_eq_true_2 by exact Hh. simpl.
  rewrite Hf. simpl. repeat split.
  - apply not_elem_of_remove.
  - rewrite <- app_assoc. reflexivity.
Qed.

Lemma editor_cleanup_missing_file_witness :
  fst (_editor_cleanup 0 "/tmp/tmpq1" sample_world)
  = Raise (FileNotFoundError "/tmp/tmpq1").
Proof.
  apply (editor_cleanup_missing_file 0 "/tmp/tmpq1" sample_world);
    [compute_done | reflexivity].
Defined.

(** Unless the editor exited normally with code 0 and the element is
    still there, [on_editor_closed] changes nothing: no call is made, the
    element keeps its value, the temp file and its descriptor stay. *)
Theorem on_editor_closed_no_write_back (esc : string -> string)
    (elem : Elem) (h : nat) (f : string) (code : Z) (st : ExitStatus)
    (w : World) :
  code <> 0%Z \/ st = CrashExit \/ fst (isNull elem w) = Ok true ->
  snd (on_editor_closed esc elem h f code st w) = w.
Proof.
  intros H. unfold on_editor_closed.
  destruct (Z.eqb_spec code 0) as [->|Hc]; [|reflexivity]. simpl negb.
  cbv iota. destruct st; [|reflexivity].
  destruct H as [H|[H|H]]; [congruence | discriminate |].
  revert H. unfold bind, isNull, negb. cbv beta iota.
  destruct elem as [i|]; [|reflexivity].
  destruct (elements w !! i); [discriminate | reflexivity].
Qed.

Lemma on_editor_closed_no_write_back_witness :
  snd (on_editor_closed javascript_escape (Some 7) 1 "/tmp/tmpq1" 3 NormalExit
         edited_world) = edited_world.
Proof.
  apply on_editor_closed_no_write_back. left. lia.
Defined.

(** The three ways [on_editor_closed] can leave the world: untouched,
    with only the read attempted, or written back and cleaned up. *)
Lemma on_editor_closed_paths (esc : string -> string) (elem : Elem)
    (h : nat) (f : string) (code : Z) (st : ExitStatus) (w : World) :
  snd (on_editor_closed esc elem h f code st w) = w \/
  snd (on_editor_closed esc elem h f code st w) = log (COpenRead f) w \/
  exists (i : nat) (text : string),
    elem = Some i /\
    snd (on_editor_closed esc elem h f code st w)
    = snd (_editor_cleanup h f
             (snd (evaluateJavaScript (Some i)
                     ("this.value='" +:+ esc text +:+ "'")
                     (log (COpenRead f) w)))).
Proof.
  destruct (Z.eqb_spec code 0) as [->|Hc];
    [|left; now rewrite on_editor_closed_nonzero].
  destruct st; [|left; reflexivity].
  destruct elem as [i|]; [|left; reflexivity].
  destruct (elements w !! i) as [old|] eqn:Hi.
  - destruct (fs w !! f) as [T|] eqn:Hf.
    + destruct (utf8_valid T) eqn:Hv.
      * right. right. exists i, (universal_newlines T).
        split; [reflexivity|].
        now rewrite (on_editor_closed_write_back esc i h f T old w Hi Hf Hv).
      * right. left. unfold on_editor_closed. simpl negb. cbv iota.
        unfold isNull, read_lines_joined, utf8_decode, bind, emit. simpl.
        rewrite Hi, Hf, Hv. reflexivity.
    + right. left. unfold on_editor_closed. simpl negb. cbv iota.
      unfold isNull, read_lines_joined, bind, emit. simpl.
      rewrite Hi, Hf. reflexivity.
  - left. unfold on_editor_closed. simpl negb. cbv iota.
    unfold isNull, bind. simpl. rewrite Hi. reflexivity.
Qed.

(** With an escape function whose result always makes
    [this.value='...'] one assignment of a string literal, as the modelled
    one does, [on_editor_closed] never changes another element than its
    own, and never brings a node into being, whatever the exit code, the
    status, the state of the files and the engine.  Without that, what
    the injected script does to other elements is up to the engine. *)
Theorem on_editor_closed_other_elements (esc : string -> string)
    (elem : Elem) (h : nat) (f : string) (code : Z) (st : ExitStatus)
    (w : World) :
  (forall text : string,
     is_Some (js_assigned_value ("this.value='" +:+ esc text +:+ "'"))) ->
  let w' := snd (on_editor_closed esc elem h f code st w) in
  (forall j : nat, elem <> Some j -> elements w' !! j = elements w !! j) /\
  (forall j : nat, elements w !! j = None -> elements w' !! j = None).
Proof.
  intros Hesc. cbv zeta.
  destruct (on_editor_closed_paths esc elem h f code st w)
    as [-> | [-> | (i & text & -> & ->)]]; [split; auto | split; auto |].
  destruct (evaluateJavaScript_frame (Some i)
              ("this.value='" +:+ esc text +:+ "'")
              (log (COpenRead f) w)) as (e' & -> & Hframe).
  destruct (Hframe (Hesc text)) as [Hother Hnone].
  rewrite editor_cleanup_elements. simpl. split; assumption.
Qed.

Lemma on_editor_closed_other_elements_witness :
  elements meddling_world !! 8 = Some "other" /\
  elements (snd (on_editor_closed javascript_escape (Some 7) 1 "/tmp/tmpq1"
                   0 NormalExit meddling_world)) !! 8 = Some "other" /\
  elements (snd (on_editor_closed (fun text => text) (Some 7) 1 "/tmp/tmpq1"
                   0 NormalExit meddling_world)) !! 8 = Some "gone".
Proof.
  destruct (on_editor_closed_other_elements javascript_escape (Some 7) 1
              "/tmp/tmpq1" 0 NormalExit meddling_world) as [Hother _].
  { intros text. eexists. apply js_assigned_value_escape. }
  split; [reflexivity|]. split; [|vm_compute; reflexivity].
  rewrite Hother by discriminate. reflexivity.
Defined.

(** When the temp file has disappeared by the time the editor exits,
    [on_editor_closed] fails with [FileNotFoundError] at the read: the
    element is not written, and no cleanup runs, so the descriptor stays
    open. *)
Theorem on_editor_closed_missing_file (esc : string -> string) (i h : nat)
    (f old : string) (w : World) :
  elements w !! i = Some old -> fs w !! f = None ->
  on_editor_closed esc (Some i) h f 0 NormalExit w
  = (Raise (FileNotFoundError f), log (COpenRead f) w).
Proof.
  intros Hi Hf. unfold on_editor_closed. simpl negb. cbv iota.
  unfold isNull, read_lines_joined, bind, emit. simpl.
  rewrite Hi, Hf. reflexivity.
Qed.

Lemma on_editor_closed_missing_file_witness :
  on_editor_closed javascript_escape (Some 7) 0 "/tmp/tmpq1" 0 NormalExit
    sample_world
  = (Raise (FileNotFoundError "/tmp/tmpq1"),
     log (COpenRead "/tmp/tmpq1") sample_world).
Proof.
  apply (on_editor_closed_missing_file javascript_escape 7 0 "/tmp/tmpq1"
           "hello"); reflexivity.
Defined.

(** What [editor] can have done to files, descriptors and page when it
    ends, on whatever path: nothing, or one new file under a name that
    was unused and one new descriptor. *)
Lemma editor_paths (w : World) :
  elements (snd (editor w)) = elements w /\
  ((fs (snd (editor w)) = fs w /\ open_fds (snd (editor w)) = open_fds w) \/
   exists (filename v : string) (rest : list string),
     first_unused (fs w) (tmp_names w) = Some (filename, rest) /\
     fs (snd (editor w)) = <[filename := v]> (fs w) /\
     open_fds (snd (editor w)) = {[fresh (open_fds w)]} ∪ open_fds w).
Proof.
  run_editor.
  destruct (focus w) as [i|] eqn:Hfo; [|split; [|left; split]; reflexivity].
  destruct (elements w !! i) as [v|] eqn:Hel; cbv beta iota;
    [|rewrite ?Hel; split; [|left; split]; reflexivity].
  rewrite ?Hel. cbv beta iota.
  destruct (first_unused (fs w) (tmp_names w)) as [[filename rest]|] eqn:Hfu;
    cbv beta iota; [|split; [|left; split]; reflexivity].
  unfold log, set_open_fds, set_fs, set_tmp_names;
  cbn [fs open_fds undeletable disk_full tmp_names elements focus
       cfg_editor js_other trace fst snd];
  rewrite ?Hel; cbn [default from_option id].
  destruct v as [|c v]; simpl.
  - destruct (cfg_editor w); simpl;
      (split; [reflexivity|]; right; exists filename, "", rest;
       split; [reflexivity|]; split; reflexivity).
  - destruct (disk_full w); simpl.
    + split; [reflexivity|]. right. exists filename, "", rest.
      split; [reflexivity|]. split; [apply insert_insert_eq | reflexivity].
    + destruct (cfg_editor w); simpl;
        (split; [reflexivity|]; right; exists filename, (String c v), rest;
         split; [reflexivity|]; split; [apply insert_insert_eq | reflexivity]).
Qed.

(** [editor] never changes or removes a file that exists, never closes a
    descriptor and never changes the page, on whatever path it ends; the
    temp file and descriptor it creates are different from every file
    and descriptor that was there, so that a session that is already
    running keeps its temp file and its handle. *)
Theorem editor_frame (w : World) :
  let w' := snd (editor w) in
  (forall (f c : string), fs w !! f = Some c -> fs w' !! f = Some c) /\
  (forall h : nat, h ∈ open_fds w -> h ∈ open_fds w') /\
  elements w' = elements w /\
  (forall (filename : string) (rest : list string),
     first_unused (fs w) (tmp_names w) = Some (filename, rest) ->
     fs w !! filename = None /\ (fresh (open_fds w) ∉ open_fds w)).
Proof.
  cbv zeta. destruct (editor_paths w) as [Hel Hp].
  split; [|split; [|split; [exact Hel|]]].
  - intros f c Hf. destruct Hp as [[-> _]|(fn & v & rest & Hfu & -> & _)];
      [exact Hf|].
    rewrite lookup_insert_ne; [exact Hf|].
    intros <-. apply first_unused_absent in Hfu. congruence.
  - intros h Hh. destruct Hp as [[_ ->]|(fn & v & rest & _ & _ & ->)];
      [exact Hh | apply elem_of_union_r, Hh].
  - intros filename rest Hfu. split;
      [exact (first_unused_absent _ _ _ _ Hfu) | apply is_fresh].
Qed.

Lemma editor_frame_witness :
  fs (snd (editor running_world)) !! "/tmp/tmpq1" = Some "hello" /\
  bool_decide (1 ∈ open_fds (snd (editor running_world))) = true.
Proof.
  destruct (editor_frame running_world) as (Hf & Hh & _).
  split; [apply Hf; reflexivity|].
  apply bool_decide_eq_true_2, Hh. compute_done.
Defined.

(** With an element whose text is empty, [editor] does not open the temp
    file for writing, full disk or not: the file stays as [mkstemp] made
    it, empty, and the process is started on it. *)
Theorem editor_empty_text (w : World) (i : nat) (filename executable : string)
    (rest templates : list string) :
  focus w = Some i -> elements w !! i = Some "" ->
  first_unused (fs w) (tmp_names w) = Some (filename, rest) ->
  cfg_editor w = executable :: templates ->
  exists w' : World,
    editor w = (Ok tt, w') /\
    fs w' !! filename = Some "" /\
    trace w'
    = trace w ++ [CMkstemp (fresh (open_fds w)) filename; CGetValue (Some i);
                  CConnectFinished (Some i) (fresh (open_fds w)) filename;
                  CConnectError (fresh (open_fds w)) filename;
                  CProcStart executable
                    (editor_args (executable :: templates) filename)].
Proof.
  intros Hfo Hel Hfu Hcfg.
  destruct (editor_started w i "" filename executable rest templates
              Hfo Hel Hfu (or_introl eq_refl) Hcfg) as (w' & He & Hf & Ht).
  exists w'. split; [exact He|]. split; [exact Hf | exact Ht].
Qed.

(** With an empty [editor] setting, [editor] fails with [IndexError] at
    [editor[0]], after the temp file has been made and written and both
    callbacks connected, and these are all the calls it has made: no
    process is started, and the temp file and its descriptor are left
    behind. *)
Theorem editor_empty_setting (w : World) (i : nat) (v filename : string)
    (rest : list string) :
  focus w = Some i -> elements w !! i = Some v ->
  first_unused (fs w) (tmp_names w) = Some (filename, rest) ->
  truthy v = false \/ disk_full w = false ->
  cfg_editor w = [] ->
  fst (editor w) = Raise IndexError /\
  fs (snd (editor w)) !! filename = Some v /\
  fresh (open_fds w) ∈ open_fds (snd (editor w)) /\
  trace (snd (editor w))
  = trace w ++ [CMkstemp (fresh (open_fds w)) filename; CGetValue (Some i)]
    ++ (if truthy v then [COpenWrite filename] else [])
    ++ [CConnectFinished (Some i) (fresh (open_fds w)) filename;
        CConnectError (fresh (open_fds w)) filename].
Proof.
  intros Hfo Hel Hfu Hw Hcfg. editor_prelude Hfo Hel Hfu.
  destruct v as [|c v]; simpl.
  - rewrite Hcfg. simpl. repeat split.
    + apply lookup_insert_eq.
    + apply elem_of_union_l, elem_of_singleton. reflexivity.
    + rewrite <- !app_assoc. reflexivity.
  - destruct Hw as [Hw|Hw]; [discriminate|]. rewrite Hw, Hcfg. simpl.
    repeat split.
    + apply lookup_insert_eq.
    + apply elem_of_union_l, elem_of_singleton. reflexivity.
    + rewrite <- !app_assoc. reflexivity.
Qed.

Lemma editor_empty_text_witness :
  exists w' : World,
    editor empty_text_world = (Ok tt, w') /\
    fs w' !! "/tmp/tmpq1" = Some "" /\
    trace w'
    = [CMkstemp 1 "/tmp/tmpq1"; CGetValue (Some 7);
       CConnectFinished (Some 7) 1 "/tmp/tmpq1";
       CConnectError 1 "/tmp/tmpq1";
       CProcStart "gvim" ["-f"; "/tmp/tmpq1"]].
Proof.
  apply (editor_empty_text empty_text_world 7 "/tmp/tmpq1" "gvim"
           ["/tmp/tmpq2"] ["-f"; "{}"]); reflexivity.
Defined.

Lemma editor_empty_setting_witness :
  fst (editor no_editor_world) = Raise IndexError /\
  fs (snd (editor no_editor_world)) !! "/tmp/tmpq1" = Some "hello" /\
  fresh (open_fds no_editor_world) ∈ open_fds (snd (editor no_editor_world)) /\
  trace (snd (editor no_editor_world))
  = [CMkstemp 1 "/tmp/tmpq1"; CGetValue (Some 7); COpenWrite "/tmp/tmpq1";
     CConnectFinished (Some 7) 1 "/tmp/tmpq1"; CConnectError 1 "/tmp/tmpq1"].
Proof.
  apply (editor_empty_setting no_editor_world 7 "hello" "/tmp/tmpq1"
           ["/tmp/tmpq2"]); try reflexivity. right. reflexivity.
Defined.

(** [on_editor_error] never returns normally: whatever the handle, the
    file, the error value and the state of the world, it ends in an
    exception, be it its own message, the [KeyError] of an unknown error
    value, or what cleanup raised. *)
Theorem on_editor_error_always_raises (h : nat) (f : string) (error : Z)
    (w : World) :
  exists e : exn, fst (on_editor_error h f error w) = Raise e.
Proof.
  destruct (on_editor_error_body h f error w) as [_ ->].
  destruct (fst (_editor_cleanup h f w)) as [[]|e]; [|eauto].
  destruct (messages !! error); eauto.
Qed.

(** When the temp file does not hold valid UTF-8 as the editor exits with
    code 0, [on_editor_closed] fails with [UnicodeDecodeError] at the
    read: the element is not written, and no cleanup runs, so the temp
    file and its descriptor stay. *)
Theorem on_editor_closed_undecodable_file (esc : string -> string) (i h : nat)
    (f content old : string) (w : World) :
  elements w !! i = Some old -> fs w !! f = Some content ->
  utf8_valid content = false ->
  on_editor_closed esc (Some i) h f 0 NormalExit w
  = (Raise UnicodeDecodeError, log (COpenRead f) w).
Proof.
  intros Hi Hf Hv. unfold on_editor_closed. simpl negb. cbv iota.
  unfold isNull, read_lines_joined, utf8_decode, bind, emit. simpl.
  rewrite Hi, Hf, Hv. reflexivity.
Qed.

Lemma on_editor_closed_undecodable_file_witness :
  on_editor_closed javascript_escape (Some 7) 1 "/tmp/tmpq1" 0 NormalExit
    latin1_world
  = (Raise UnicodeDecodeError, log (COpenRead "/tmp/tmpq1") latin1_world).
Proof.
  apply (on_editor_closed_undecodable_file javascript_escape 7 1 "/tmp/tmpq1"
           (String "233" "") "hello"); reflexivity.
Defined.
